(** * rlog_generator.utils: function resolution and template rendering

    A shallow embedding of [src/rlog_generator/utils.py].  Python values,
    exceptions and the interpreter state the module touches (its own global
    namespace, the provider registry, the random source, the clock, the file
    system and the import system) are modelled explicitly; every function of
    the module becomes a state-passing function that either returns a value
    and a successor state or raises an exception.

    Strings are [string]s whose characters stand for the code points 0..255. *)

From Stdlib Require Import ZArith Ascii String List Lia.
From Stdlib Require Import DecimalString HexadecimalString.
From Stdlib Require Import Floats.SpecFloat.
From stdpp Require Import base option list strings gmap.

Set Default Proof Using "Type".
Set Warnings "-register-all".

(** ** Python values

    The values a YAML configuration holds and the module passes around.
    [VObj] stands for any other object (a module, a function, a [Faker]
    instance, a [datetime]): it is identified by a name, is true, and has no
    container protocol of its own; calling, converting and formatting it are
    left to the environment. *)

Inductive pyval : Type :=
| VNone
| VBool (b : bool)
| VInt (n : Z)
| VFloat (f : spec_float)
| VStr (s : string)
| VList (items : list pyval)
| VTuple (items : list pyval)
| VDict (entries : list (pyval * pyval))
| VObj (id : string).

Abbreviation namespace := (gmap string pyval).

Definition is_str (v : pyval) : bool :=
  match v with VStr _ => true | _ => false end.

Definition is_list (v : pyval) : bool :=
  match v with VList _ => true | _ => false end.

(** ** Exceptions *)

Inductive exn_class : Type :=
| ValueError
| KeyError
| IndexError
| NameError
| TypeError
| AttributeError
| FileNotFoundError
| YAMLError
| OtherError (name : string).

(** An exception carries its class, its argument and its [__cause__] (set by
    [raise ... from ...], [None] for a plain [raise]). *)
Inductive exn : Type :=
| Exn (cls : exn_class) (arg : string) (cause : option exn).

Definition exn_cls (e : exn) : exn_class := match e with Exn c _ _ => c end.
Definition exn_arg (e : exn) : string := match e with Exn _ a _ => a end.
Definition exn_cause (e : exn) : option exn := match e with Exn _ _ c => c end.

Inductive outcome (A : Type) : Type :=
| Ok (a : A)
| Raise (e : exn).
Arguments Ok {A} a.
Arguments Raise {A} e.

Definition is_ok {A} (o : outcome A) : bool :=
  match o with Ok _ => true | Raise _ => false end.

Definition obind {A B} (o : outcome A) (k : A -> outcome B) : outcome B :=
  match o with
  | Ok a => k a
  | Raise e => Raise e
  end.

(** ** Interpreter state *)

(** The random source: an unbounded supply of raw draws and the number of
    draws consumed so far. *)
Record rng : Type := Rng {
  entropy : nat -> nat;
  draws : nat
}.

Record world : Type := World {
  (** attributes of the module [rlog_generator.utils] itself, as seen by
      [hasattr]/[getattr]; the global [fake] lives here once assigned *)
  core_ns : namespace;
  (** the global [provider_functions]: a dict in insertion order *)
  provider_functions : list (string * namespace);
  random_state : rng;
  (** what [datetime.datetime.now()] returns *)
  clock : pyval;
  (** readable files: path to contents *)
  files : gmap string string;
  (** the path of the [providers] directory next to the module's file *)
  providers_dir : string;
  (** [os.listdir(providers_dir)], [None] when the directory is missing *)
  providers_listing : option (list string);
  sys_path : list string;
  sys_modules : gmap string namespace
}.

Definition set_core_ns (ns : namespace) (w : world) : world :=
  World ns (provider_functions w) (random_state w) (clock w) (files w)
        (providers_dir w) (providers_listing w) (sys_path w) (sys_modules w).

Definition set_random_state (r : rng) (w : world) : world :=
  World (core_ns w) (provider_functions w) r (clock w) (files w)
        (providers_dir w) (providers_listing w) (sys_path w) (sys_modules w).

Definition set_sys_path (p : list string) (w : world) : world :=
  World (core_ns w) (provider_functions w) (random_state w) (clock w) (files w)
        (providers_dir w) (providers_listing w) p (sys_modules w).

Definition set_provider_functions (reg : list (string * namespace)) (w : world)
  : world :=
  World (core_ns w) reg (random_state w) (clock w) (files w)
        (providers_dir w) (providers_listing w) (sys_path w) (sys_modules w).

Definition set_sys_modules (m : gmap string namespace) (w : world) : world :=
  World (core_ns w) (provider_functions w) (random_state w) (clock w) (files w)
        (providers_dir w) (providers_listing w) (sys_path w) m.

(** ** The monad of module-level code *)

Definition py (A : Type) : Type := world -> outcome (A * world).

Definition ret {A} (a : A) : py A := fun w => Ok (a, w).

Definition bind {A B} (m : py A) (k : A -> py B) : py B :=
  fun w => match m w with
           | Ok (a, w') => k a w'
           | Raise e => Raise e
           end.

Definition raise {A} (cls : exn_class) (arg : string) : py A :=
  fun _ => Raise (Exn cls arg None).

Definition lift {A} (o : outcome A) : py A :=
  fun w => match o with Ok a => Ok (a, w) | Raise e => Raise e end.

Declare Scope py_scope.
Delimit Scope py_scope with py.
Notation "x <- c1 ;; c2" := (bind c1 (fun x => c2))
  (at level 100, c1 at next level, right associativity) : py_scope.
Notation "x <~ c1 ;; c2" := (obind c1 (fun x => c2))
  (at level 100, c1 at next level, right associativity) : py_scope.
Notation "'let*' pat := c1 'in' c2" := (obind c1 (fun x => let 'pat := x in c2))
  (at level 10, pat pattern, c1 at level 100, c2 at level 200) : py_scope.
Open Scope py_scope.

(** ** What lies outside the module

    The callables found in namespaces, the [faker], [yaml] and [importlib]
    libraries and the object protocol used by [str.format] are not part of
    the module; the development is parametric in them. *)

Class Externals : Type := {
  (** calling a Python object with positional arguments; may consume
      randomness *)
  py_call : pyval -> list pyval -> rng -> outcome (pyval * rng);
  (** [Faker(locale)] *)
  Faker : pyval -> outcome pyval;
  (** [yaml.load(f, Loader=yaml.FullLoader)] on the contents of a file *)
  yaml_load : string -> outcome pyval;
  (** locating and executing a module not yet in [sys.modules] *)
  find_module : list string -> string -> outcome namespace;
  (** [fake.unix_time(start_datetime=datetime.timedelta(-30))] *)
  unix_time : pyval -> rng -> outcome (pyval * rng);
  (** the builtin [round] *)
  py_round : pyval -> outcome pyval;
  (** the [.attr] and [[index]] accessors of a replacement field *)
  py_access : pyval -> string -> outcome pyval;
  (** the conversions [!r], [!s] and [!a] *)
  py_convert : ascii -> pyval -> outcome pyval;
  (** [format(value, spec)] *)
  py_format : pyval -> string -> outcome string
}.

(** ** Strings *)

(** [str.isspace] on the code points below 256. *)
Definition isspace (c : ascii) : bool :=
  match c with
  | "009" | "010" | "011" | "012" | "013"
  | "028" | "029" | "030" | "031" | " " | "133" | "160" => true
  | _ => false
  end%char.

(** [s.split()]: maximal runs of non-whitespace characters, in order.
    [cur] is the word being read, if any. *)
Fixpoint split_from (cur : option string) (s : string) : list string :=
  match s with
  | EmptyString => match cur with Some word => [word] | None => [] end
  | String c s' =>
      if isspace c then
        match cur with
        | Some word => word :: split_from None s'
        | None => split_from None s'
        end
      else split_from (Some (default "" cur +:+ String c "")) s'
  end.

Definition split (s : string) : list string := split_from None s.

(** [s[n:]] *)
Fixpoint string_drop (n : nat) (s : string) : string :=
  match n, s with
  | O, _ => s
  | S n', String _ s' => string_drop n' s'
  | S _, EmptyString => ""
  end.

(** [" ".join(tokens)] *)
Fixpoint join_space (tokens : list string) : string :=
  match tokens with
  | [] => ""
  | [t] => t
  | t :: rest => t +:+ " " +:+ join_space rest
  end.

Fixpoint no_space (s : string) : bool :=
  match s with
  | EmptyString => true
  | String c s' => negb (isspace c) && no_space s'
  end.

Fixpoint all_space (s : string) : bool :=
  match s with
  | EmptyString => true
  | String c s' => isspace c && all_space s'
  end.

(** A word that [split] returns: non-empty and free of whitespace. *)
Definition is_word (s : string) : bool :=
  negb (String.eqb s "") && no_space s.

(** [needle in haystack] on strings. *)
Fixpoint is_substring (needle haystack : string) : bool :=
  String.prefix needle haystack ||
  match haystack with
  | EmptyString => false
  | String _ rest => is_substring needle rest
  end.

(** ** The markup of [str.format]

    A template is read left to right into literal text and replacement
    fields, the way CPython's [MarkupIterator] and [parse_field] read it.
    Reading stops at the first malformed construct; what was read before it
    is still rendered first, so the error is kept aside. *)

Record field : Type := Field {
  field_name : string;
  (** the character after [!], or the zero character when there is none *)
  conversion : ascii;
  format_spec : string;
  format_spec_needs_expanding : bool
}.

Inductive item : Type :=
| Literal (text : string)
| Replacement (f : field).

Inductive scan_state : Type :=
(** in literal text *)
| SLit (lit : string)
(** just after a [{] met in literal text *)
| SOpen (lit : string)
(** just after a [}] met in literal text *)
| SClose (lit : string)
(** in a field name *)
| SName (name : string)
(** in a field name, between [[] and []] *)
| SBracket (name : string)
(** just after the [!] that ends a field name *)
| SConv (name : string)
(** just after the conversion character *)
| SConvDone (name : string) (conv : ascii)
(** in a format specification, [count] braces deep *)
| SSpec (name : string) (conv : ascii) (spec : string) (count : nat)
        (expand : bool).

Definition snoc (s : string) (c : ascii) : string := s +:+ String c "".

Definition no_conversion : ascii := "000"%char.

Definition format_error (msg : string) : exn := Exn ValueError msg None.

(** One character read inside a field name. *)
Definition name_step (name : string) (c : ascii)
  : exn + (list item * scan_state) :=
  match c with
  | "{"%char => inl (format_error "unexpected '{' in field name")
  | "["%char => inr ([], SBracket (snoc name c))
  | "}"%char =>
      inr ([Replacement (Field name no_conversion "" false)], SLit "")
  | ":"%char => inr ([], SSpec name no_conversion "" 1 false)
  | "!"%char => inr ([], SConv name)
  | _ => inr ([], SName (snoc name c))
  end.

(** One character of the template: the items completed by it and the next
    state, or the error it causes. *)
Definition scan_step (st : scan_state) (c : ascii)
  : exn + (list item * scan_state) :=
  match st with
  | SLit lit =>
      match c with
      | "{"%char => inr ([], SOpen lit)
      | "}"%char => inr ([], SClose lit)
      | _ => inr ([], SLit (snoc lit c))
      end
  | SOpen lit =>
      match c with
      | "{"%char => inr ([], SLit (snoc lit c))
      | _ =>
          match name_step "" c with
          | inl e => inl e
          | inr (items, st') => inr (Literal lit :: items, st')
          end
      end
  | SClose lit =>
      match c with
      | "}"%char => inr ([], SLit (snoc lit c))
      | _ => inl (format_error "Single '}' encountered in format string")
      end
  | SName name => name_step name c
  | SBracket name =>
      match c with
      | "]"%char => inr ([], SName (snoc name c))
      | _ => inr ([], SBracket (snoc name c))
      end
  | SConv name => inr ([], SConvDone name c)
  | SConvDone name conv =>
      match c with
      | "}"%char => inr ([Replacement (Field name conv "" false)], SLit "")
      | ":"%char => inr ([], SSpec name conv "" 1 false)
      | _ => inl (format_error "expected ':' after conversion specifier")
      end
  | SSpec name conv spec count expand =>
      match c with
      | "{"%char => inr ([], SSpec name conv (snoc spec c) (S count) true)
      | "}"%char =>
          match count with
          | 1 => inr ([Replacement (Field name conv spec expand)], SLit "")
          | _ => inr ([], SSpec name conv (snoc spec c) (pred count) expand)
          end
      | _ => inr ([], SSpec name conv (snoc spec c) count expand)
      end
  end.

(** The end of the template. *)
Definition scan_end (st : scan_state) : list item * option exn :=
  match st with
  | SLit lit => ([Literal lit], None)
  | SOpen _ =>
      ([], Some (format_error "Single '{' encountered in format string"))
  | SClose _ =>
      ([], Some (format_error "Single '}' encountered in format string"))
  | SName _ | SBracket _ =>
      ([], Some (format_error "expected '}' before end of string"))
  | SConv _ =>
      ([], Some (format_error
                   "end of string while looking for conversion specifier"))
  | SConvDone _ _ | SSpec _ _ _ _ _ =>
      ([], Some (format_error "unmatched '{' in format spec"))
  end.

Fixpoint scan (st : scan_state) (s : string) : list item * option exn :=
  match s with
  | EmptyString => scan_end st
  | String c s' =>
      match scan_step st c with
      | inl e => ([], Some e)
      | inr (items, st') =>
          let '(more, err) := scan st' s' in (items ++ more, err)
      end
  end.

Definition markup (template : string) : list item * option exn :=
  scan (SLit "") template.

(** The part of a field name before the first [.] or [[], and the rest. *)
Fixpoint field_name_split (name : string) : string * string :=
  match name with
  | EmptyString => ("", "")
  | String c name' =>
      match c with
      | "."%char | "["%char => ("", name)
      | _ => let '(first, rest) := field_name_split name' in
             (String c first, rest)
      end
  end.

Definition PY_SSIZE_T_MAX : Z := 9223372036854775807.

Definition decimal_digit (c : ascii) : option Z :=
  Z.of_nat <$> Ascii.is_nat c.

Fixpoint get_integer_from (accumulator : Z) (s : string) : outcome (option Z) :=
  match s with
  | EmptyString => Ok (Some accumulator)
  | String c s' =>
      match decimal_digit c with
      | None => Ok None
      | Some digitval =>
          if (accumulator >? (PY_SSIZE_T_MAX - digitval) / 10)%Z
          then Raise (format_error "Too many decimal digits in format string")
          else get_integer_from (accumulator * 10 + digitval) s'
      end
  end.

(** [get_integer]: the index a name denotes, [None] when it is not a run of
    decimal digits. *)
Definition get_integer (s : string) : outcome (option Z) :=
  match s with
  | EmptyString => Ok None
  | _ => get_integer_from 0 s
  end.

Inductive an_state : Type := ANS_INIT | ANS_AUTO | ANS_MANUAL.

Record auto_number : Type := AutoNumber {
  an_mode : an_state;
  an_field_number : Z
}.

(** What a replacement field names: a positional index or a keyword. *)
Inductive field_target : Type :=
| ByIndex (i : Z)
| ByKey (key : string).

Definition autonumber_target (first : string) (index : option Z)
                             (an : auto_number)
  : outcome (field_target * auto_number) :=
  let field_name_is_empty := String.eqb first "" in
  let using_numeric_index := field_name_is_empty || bool_decide (is_Some index) in
  if using_numeric_index then
    let mode :=
      match an_mode an with
      | ANS_INIT => if field_name_is_empty then ANS_AUTO else ANS_MANUAL
      | m => m
      end in
    match mode, field_name_is_empty with
    | ANS_MANUAL, true =>
        Raise (format_error
          "cannot switch from manual field specification to automatic field numbering")
    | ANS_AUTO, false =>
        Raise (format_error
          "cannot switch from automatic field numbering to manual field specification")
    | _, true =>
        Ok (ByIndex (an_field_number an),
            AutoNumber mode (an_field_number an + 1))
    | _, false =>
        Ok (ByIndex (default 0%Z index), AutoNumber mode (an_field_number an))
    end
  else Ok (ByKey first, an).

Definition show_Z (z : Z) : string :=
  DecimalString.NilZero.string_of_int (Z.to_int z).

Definition show_hex (n : N) : string :=
  HexadecimalString.NilZero.string_of_uint (N.to_hex_uint n).

(** ** Containers and truth *)

(** [needle == v] for a string [needle]. *)
Definition eq_str (needle : string) (v : pyval) : bool :=
  match v with
  | VStr s => String.eqb needle s
  | _ => false
  end.

(** [type(v).__name__]; for a [VObj] the name given to the object stands
    in for the name of its type. *)
Definition type_name (v : pyval) : string :=
  match v with
  | VNone => "NoneType"
  | VBool _ => "bool"
  | VInt _ => "int"
  | VFloat _ => "float"
  | VStr _ => "str"
  | VList _ => "list"
  | VTuple _ => "tuple"
  | VDict _ => "dict"
  | VObj id => id
  end.

(** [needle in container] for a string [needle]. *)
Definition py_contains_str (needle : string) (container : pyval) : outcome bool :=
  match container with
  | VDict entries => Ok (existsb (fun kv => eq_str needle kv.1) entries)
  | VList items | VTuple items => Ok (existsb (eq_str needle) items)
  | VStr s => Ok (is_substring needle s)
  | _ =>
      Raise (Exn TypeError
               ("argument of type '" +:+ type_name container +:+
                "' is not iterable") None)
  end.

Fixpoint dict_get (key : string) (entries : list (pyval * pyval)) : option pyval :=
  match entries with
  | [] => None
  | (k, v) :: rest => if eq_str key k then Some v else dict_get key rest
  end.

(** [container[key]] for a string [key]. *)
Definition py_getitem_str (key : string) (container : pyval) : outcome pyval :=
  match container with
  | VDict entries =>
      match dict_get key entries with
      | Some v => Ok v
      | None => Raise (Exn KeyError key None)
      end
  | VList _ =>
      Raise (Exn TypeError
               "list indices must be integers or slices, not str" None)
  | VTuple _ =>
      Raise (Exn TypeError
               "tuple indices must be integers or slices, not str" None)
  | VStr _ =>
      Raise (Exn TypeError "string indices must be integers, not 'str'" None)
  | _ =>
      Raise (Exn TypeError
               ("'" +:+ type_name container +:+ "' object is not subscriptable")
               None)
  end.

(** Truth value testing. *)
Definition py_truthy (v : pyval) : bool :=
  match v with
  | VNone => false
  | VBool b => b
  | VInt n => negb (n =? 0)%Z
  | VFloat (S754_zero _) => false
  | VFloat _ => true
  | VStr s => negb (String.eqb s "")
  | VList items | VTuple items => negb (Nat.eqb (length items) 0)
  | VDict entries => negb (Nat.eqb (length entries) 0)
  | VObj _ => true
  end.

(** [s.endswith(suffix)] *)
Definition endswith (s suffix : string) : bool :=
  String.eqb (string_drop (String.length s - String.length suffix) s) suffix.

(** [s[:n]] for [n >= 0] *)
Fixpoint string_take (n : nat) (s : string) : string :=
  match n, s with
  | S n', String c s' => String c (string_take n' s')
  | _, _ => ""
  end.

(** [s[:-n]] for [n > 0] *)
Definition string_drop_last (n : nat) (s : string) : string :=
  string_take (String.length s - n) s.

(** [d[k] = v] on a dict kept in insertion order. *)
Fixpoint dict_set {V} (k : string) (v : V) (d : list (string * V))
  : list (string * V) :=
  match d with
  | [] => [(k, v)]
  | (k', v') :: rest =>
      if String.eqb k' k then (k', v) :: rest
      else (k', v') :: dict_set k v rest
  end.

(** ** Function resolution *)

Section Engine.
Context `{E : Externals}.

(** The module object a wrapper closes over: the core module, whose
    namespace is read when the wrapper runs, or a provider module. *)
Inductive module_ref : Type :=
| CoreModule
| ProviderModule (ns : namespace).

Definition module_attrs (m : module_ref) (w : world) : namespace :=
  match m with
  | CoreModule => core_ns w
  | ProviderModule ns => ns
  end.

Definition hasattr (m : module_ref) (name : string) (w : world) : bool :=
  bool_decide (is_Some (module_attrs m w !! name)).

(** The closure [func_wrapper] of [get_function]: it keeps the module and
    the stripped name and looks both the attribute and the global [fake] up
    when it is called. *)
Record func_wrapper : Type := FuncWrapper {
  wrapped_module : module_ref;
  wrapped_name : string
}.

(** Calling [target] with [args]: its result, or the exception it raises;
    the call may advance the random source. *)
Definition invoke (target : pyval) (args : list pyval) : py pyval :=
  fun w =>
    match py_call target args (random_state w) with
    | Ok (v, r) => Ok (v, set_random_state r w)
    | Raise e => Raise e
    end.

(** [getattr(module, function_str)(fake, *args)] *)
Definition call_wrapper (f : func_wrapper) (args : list pyval) : py pyval :=
  fun w =>
    match module_attrs (wrapped_module f) w !! wrapped_name f with
    | None => Raise (Exn AttributeError (wrapped_name f) None)
    | Some target =>
        match core_ns w !! "fake" with
        | None => Raise (Exn NameError "name 'fake' is not defined" None)
        | Some fake => invoke target (fake :: args) w
        end
    end.

(** The loop [for module in provider_functions.values()]. *)
Fixpoint search_providers (mods : list (string * namespace)) (function_str : string)
  : option func_wrapper :=
  match mods with
  | [] => None
  | (_, module) :: rest =>
      if bool_decide (is_Some (module !! function_str))
      then Some (FuncWrapper (ProviderModule module) function_str)
      else search_providers rest function_str
  end.

Definition get_function (function_str : string) (module : module_ref)
  : py func_wrapper :=
  fun w =>
    let function_str := string_drop (String.length "func_") function_str in
    if hasattr module function_str w then
      Ok (FuncWrapper module function_str, w)
    else
      match search_providers (provider_functions w) function_str with
      | Some wrapper => Ok (wrapper, w)
      | None =>
          Raise (Exn ValueError
                   ("Function " +:+ function_str +:+
                    " not found in any provider modules.") None)
      end.

Definition exec_function_str (function_str : string) : py pyval :=
  let tokens := split function_str in
  match tokens with
  | [] => raise IndexError "list index out of range"
  | token0 :: rest =>
      func <- get_function token0 CoreModule ;;
      if Nat.eqb (length tokens) 1 then call_wrapper func []
      else call_wrapper func (VStr <$> rest)
  end.

(** ** Field resolution *)

(** [random.Random._randbelow(n)] for [n > 0]. *)
Definition randbelow (n : nat) : py nat :=
  fun w =>
    let r := random_state w in
    Ok (entropy r (draws r) mod n,
        set_random_state (Rng (entropy r) (S (draws r))) w).

(** [random.choice(seq)] *)
Definition random_choice (seq : list pyval) : py pyval :=
  match length seq with
  | O => raise IndexError "Cannot choose from an empty sequence"
  | S _ =>
      i <- randbelow (length seq) ;;
      match seq !! i with
      | Some v => ret v
      | None => raise IndexError "list index out of range"
      end
  end.

Definition get_random_value (field_value : pyval) : py pyval :=
  match field_value with
  | VStr s => exec_function_str s
  | VList items => random_choice items
  | _ => raise ValueError "field value can be a string or a list"
  end.

(** ** [str.format] *)

Definition get_field_object (target : field_target) (args : list pyval)
                            (kwargs : namespace) : outcome pyval :=
  match target with
  | ByKey key =>
      match kwargs !! key with
      | Some v => Ok v
      | None => Raise (Exn KeyError key None)
      end
  | ByIndex i =>
      let out_of_range :=
        Exn IndexError
            ("Replacement index " +:+ show_Z i +:+
             " out of range for positional args tuple") None in
      if (i <? Z.of_nat (length args))%Z then
        match args !! Z.to_nat i with
        | Some v => Ok v
        | None => Raise out_of_range
        end
      else Raise out_of_range
  end.

Definition do_conversion (conv : ascii) (obj : pyval) : outcome pyval :=
  match conv with
  | "r"%char | "s"%char | "a"%char => py_convert conv obj
  | _ =>
      if (32 <? N_of_ascii conv)%N && (N_of_ascii conv <? 127)%N
      then Raise (format_error
                    ("Unknown conversion specifier " +:+ String conv ""))
      else Raise (format_error
                    ("Unknown conversion specifier \x" +:+
                     show_hex (N_of_ascii conv)))
  end.

(** [output_markup]: one replacement field.  [expand] renders a format
    specification that itself holds replacement fields. *)
Definition output_markup
    (expand : string -> auto_number -> outcome (string * auto_number))
    (args : list pyval) (kwargs : namespace)
    (f : field) (an : auto_number) : outcome (string * auto_number) :=
  let '(first, rest) := field_name_split (field_name f) in
  index <~ get_integer first ;;
  let* (target, an) := autonumber_target first index an in
  obj <~ get_field_object target args kwargs ;;
  obj <~ (if String.eqb rest "" then Ok obj else py_access obj rest) ;;
  obj <~ (if Ascii.eqb (conversion f) no_conversion then Ok obj
          else do_conversion (conversion f) obj) ;;
  let* (spec, an) := (if format_spec_needs_expanding f
                  then expand (format_spec f) an
                  else Ok (format_spec f, an)) in
  text <~ py_format obj spec ;;
  Ok (text, an).

(** Rendering the items read from a template, then surfacing the error
    that stopped the reading, if any. *)
Fixpoint render_items
    (expand : string -> auto_number -> outcome (string * auto_number))
    (args : list pyval) (kwargs : namespace)
    (items : list item) (err : option exn) (an : auto_number)
  : outcome (string * auto_number) :=
  match items with
  | [] =>
      match err with
      | Some e => Raise e
      | None => Ok ("", an)
      end
  | Literal text :: rest =>
      let* (out, an) := render_items expand args kwargs rest err an in
      Ok (text +:+ out, an)
  | Replacement f :: rest =>
      let* (text, an) := output_markup expand args kwargs f an in
      let* (out, an) := render_items expand args kwargs rest err an in
      Ok (text +:+ out, an)
  end.

(** [build_string]; [recursion_depth] starts at 2. *)
Fixpoint build_string (recursion_depth : nat) (args : list pyval)
    (kwargs : namespace) (input : string) (an : auto_number)
  : outcome (string * auto_number) :=
  match recursion_depth with
  | O => Raise (format_error "Max string recursion exceeded")
  | S depth =>
      let '(items, err) := markup input in
      render_items (build_string depth args kwargs) args kwargs items err an
  end.

(** [template.format( *args, **kwargs)] *)
Definition str_format (template : string) (args : list pyval)
                      (kwargs : namespace) : outcome string :=
  let* (out, _) := build_string 2 args kwargs template (AutoNumber ANS_INIT 0) in
  Ok out.

(** ** Template rendering *)

(** The dict comprehension [{k: get_random_value(v) for k, v in
    fields.items()}], in the order of [fields]. *)
Fixpoint resolve_fields (fields : list (string * pyval)) (values : namespace)
  : py namespace :=
  match fields with
  | [] => ret values
  | (k, v) :: rest =>
      x <- get_random_value v ;;
      resolve_fields rest (<[k := x]> values)
  end.

Definition datetime_now : py pyval := fun w => Ok (clock w, w).

Definition get_template_log (template : string) (fields : list (string * pyval))
  : py string :=
  values <- resolve_fields fields ∅ ;;
  now <- datetime_now ;;
  lift (str_format template [now] values).

(** ** The core [timestamp] *)

Definition timestamp : py pyval :=
  fun w =>
    match core_ns w !! "fake" with
    | None => Raise (Exn NameError "name 'fake' is not defined" None)
    | Some fake =>
        let* (t, r) := unix_time fake (random_state w) in
        v <~ py_round t ;;
        Ok (v, set_random_state r w)
    end.

(** ** Configuration loading *)

Definition open_read (path : string) : py string :=
  fun w =>
    match files w !! path with
    | Some content => Ok (content, w)
    | None => Raise (Exn FileNotFoundError path None)
    end.

(** The body of the [try] statement of [load_config]. *)
Definition load_config_body (yaml_file : string) : py pyval :=
  content <- open_read yaml_file ;;
  config <- lift (yaml_load content) ;;
  has_locale <- lift (py_contains_str "locale" config) ;;
  truthy <- (if has_locale
             then v <- lift (py_getitem_str "locale" config) ;; ret (py_truthy v)
             else ret false) ;;
  if truthy then
    locale <- lift (py_getitem_str "locale" config) ;;
    generator <- lift (Faker locale) ;;
    (fun w => Ok (config, set_core_ns (<["fake" := generator]> (core_ns w)) w))
  else ret config.

Definition load_config (yaml_file : string) : py pyval :=
  fun w =>
    match load_config_body yaml_file w with
    | Ok r => Ok r
    | Raise e =>
        match exn_cls e with
        | FileNotFoundError | YAMLError => Ok (VNone, w)
        | _ => Raise e
        end
    end.

(** ** Provider discovery *)

(** [importlib.import_module(name)] *)
Definition import_module (name : string) : py namespace :=
  fun w =>
    if String.prefix "." name then
      Raise (Exn TypeError
               "the 'package' argument is required to perform a relative import"
               None)
    else if String.eqb name "" then
      Raise (Exn ValueError "Empty module name" None)
    else
      match sys_modules w !! name with
      | Some module => Ok (module, w)
      | None =>
          module <~ find_module (sys_path w) name ;;
          Ok (module, set_sys_modules (<[name := module]> (sys_modules w)) w)
      end.

(** The loop [for filename in os.listdir(providers_dir)]. *)
Fixpoint load_modules_loop (filenames : list string)
    (provider_modules : list (string * namespace))
  : py (list (string * namespace)) :=
  match filenames with
  | [] => ret provider_modules
  | filename :: rest =>
      if endswith filename ".py" && negb (String.eqb filename "__init__.py")
      then
        let module_name := string_drop_last 3 filename in
        module <- import_module module_name ;;
        load_modules_loop rest (dict_set module_name module provider_modules)
      else load_modules_loop rest provider_modules
  end.

Definition load_provider_modules : py (list (string * namespace)) :=
  fun w =>
    let w := set_sys_path (providers_dir w :: sys_path w) w in
    match providers_listing w with
    | None => Raise (Exn FileNotFoundError (providers_dir w) None)
    | Some filenames => load_modules_loop filenames [] w
    end.

(** The dict object the global [provider_functions] is bound to: module
    names to module objects. *)
Definition registry_object (registry : list (string * namespace)) : pyval :=
  VDict ((fun p => (VStr p.1, VObj p.1)) <$> registry).

(** The module-level statement [provider_functions = load_provider_modules()]:
    the registry is installed, and the name [provider_functions] becomes an
    attribute of the module like any other global. *)
Definition init_provider_functions : py unit :=
  provider_modules <- load_provider_modules ;;
  (fun w =>
     Ok (tt,
         set_core_ns
           (<["provider_functions" := registry_object provider_modules]>
              (core_ns w))
           (set_provider_functions provider_modules w))).

End Engine.

(** ** A concrete environment

    A small instance of the outside world on which the statements below are
    evaluated: a handful of callables, a two-locale [Faker], three
    configuration files and one provider directory. *)

Module Sample.

Definition call (callee : pyval) (args : list pyval) (r : rng)
  : outcome (pyval * rng) :=
  match callee with
  | VObj id =>
      if String.eqb id "echo" then Ok (VTuple args, r)
      else if String.eqb id "core.randint"
      then Ok (VStr "core", Rng (entropy r) (S (draws r)))
      else if String.eqb id "net.randint"
      then Ok (VStr "net", Rng (entropy r) (S (draws r)))
      else Raise (Exn TypeError "object is not callable" None)
  | _ => Raise (Exn TypeError "object is not callable" None)
  end.

Definition new_faker (locale : pyval) : outcome pyval :=
  match locale with
  | VStr s =>
      if String.eqb s "en_US" then Ok (VObj "Faker(en_US)")
      else if String.eqb s "fr_FR" then Ok (VObj "Faker(fr_FR)")
      else Raise (Exn AttributeError "Invalid configuration for faker locale" None)
  | _ => Raise (Exn AttributeError "Invalid configuration for faker locale" None)
  end.

Definition load_yaml (content : string) : outcome pyval :=
  if String.eqb content "locale: en_US"
  then Ok (VDict [(VStr "locale", VStr "en_US")])
  else if String.eqb content "locale: fr_FR"
  then Ok (VDict [(VStr "locale", VStr "fr_FR")])
  else if String.eqb content "locale: ''"
  then Ok (VDict [(VStr "locale", VStr "")])
  else if String.eqb content "patterns: 3"
  then Ok (VDict [(VStr "patterns", VInt 3)])
  else Raise (Exn YAMLError "could not parse" None).

Definition net_module : namespace :=
  {[ "randint" := VObj "net.randint"; "randip" := VObj "echo" ]}.

Definition web_module : namespace :=
  {[ "randip" := VObj "net.randint"; "randuri" := VObj "echo" ]}.

Definition locate (path : list string) (name : string) : outcome namespace :=
  match path with
  | dir :: _ =>
      if String.eqb dir "/pkg/providers" && String.eqb name "net"
      then Ok net_module
      else if String.eqb dir "/pkg/providers" && String.eqb name "web"
      then Ok web_module
      else Raise (Exn (OtherError "ModuleNotFoundError") name None)
  | [] => Raise (Exn (OtherError "ModuleNotFoundError") name None)
  end.

Definition show (v : pyval) (spec : string) : outcome string :=
  if String.eqb spec "" then
    match v with
    | VStr s => Ok s
    | VInt n => Ok (show_Z n)
    | VObj id => Ok id
    | _ => Raise (Exn TypeError "unsupported format string" None)
    end
  else Raise (Exn ValueError "Invalid format specifier" None).

#[export] Instance externals : Externals := {|
  py_call := call;
  Faker := new_faker;
  yaml_load := load_yaml;
  find_module := locate;
  unix_time := fun _ r => Ok (VInt 1700000000, Rng (entropy r) (S (draws r)));
  py_round := fun v => Ok v;
  py_access := fun _ rest => Raise (Exn AttributeError rest None);
  py_convert := fun _ v => Ok v;
  py_format := show
|}.

(** The state right after the module was imported: [fake] is not bound. *)
Definition fresh : world := {|
  core_ns := {[ "timestamp" := VObj "timestamp"; "randint" := VObj "core.randint";
                "echo" := VObj "echo" ]};
  provider_functions := [("net", net_module); ("web", web_module)];
  random_state := Rng (fun n => 2 * n + 1) 0;
  clock := VObj "2024-01-02 03:04:05";
  files := {[ "en.yml" := "locale: en_US"; "fr.yml" := "locale: fr_FR";
              "empty.yml" := "locale: ''"; "plain.yml" := "patterns: 3";
              "broken.yml" := "{" ]};
  providers_dir := "/pkg/providers";
  providers_listing := Some ["net.py"; "__init__.py"; "README.md"; "web.py"];
  sys_path := ["/usr/lib/python3"];
  sys_modules := ∅
|}.

(** The same state with [fake] bound to a generator. *)
Definition configured : world :=
  set_core_ns (<["fake" := VObj "Faker(en_US)"]> (core_ns fresh)) fresh.

End Sample.

(** ** Auxiliary notions used in the statements *)

(** A module that does not expose [name]. *)
Definition lacks (name : string) (p : string * namespace) : Prop :=
  p.2 !! name = None.

(** The keyword a replacement field looks up in the keyword arguments, if
    it does: the part of its name before any accessor, when that part is
    neither empty nor a decimal index. *)
Definition field_key (f : field) : option string :=
  let first := (field_name_split (field_name f)).1 in
  if String.eqb first "" then None
  else match get_integer first with
       | Ok None => Some first
       | _ => None
       end.

Definition item_keys (items : list item) : list string :=
  items ≫= (fun it => match it with
                      | Literal _ => []
                      | Replacement f => option_list (field_key f)
                      end).

(** The keywords one replacement field refers to: its own and those of the
    replacement fields nested in its format specification. *)
Definition field_references (f : field) : list string :=
  option_list (field_key f) ++
  (if format_spec_needs_expanding f
   then item_keys (markup (format_spec f)).1
   else []).

(** The value a configuration gives for the key [locale], when the
    configuration is a mapping that has the key with a true value. *)
Definition locale_of (config : pyval) : option pyval :=
  match config with
  | VDict entries =>
      match dict_get "locale" entries with
      | Some v => if py_truthy v then Some v else None
      | None => None
      end
  | _ => None
  end.

(** The state after the assignment [fake = generator]. *)
Definition assign_fake (generator : pyval) (w : world) : world :=
  set_core_ns (<["fake" := generator]> (core_ns w)) w.

(** A computation that leaves the module's own namespace, and with it the
    global [fake], as it found it. *)
Definition preserves_core {A} (m : py A) : Prop :=
  forall w a w', m w = Ok (a, w') -> core_ns w' = core_ns w.

(** Whatever [f] renders, [g] renders the same. *)
Definition ok_preserved {A B} (f g : A -> B -> outcome (string * B)) : Prop :=
  forall a b r, f a b = Ok r -> g a b = Ok r.

(** The placeholder names a template refers to. *)
Definition referenced_names (template : string) : list string :=
  (markup template).1 ≫=
    (fun it => match it with
               | Literal _ => []
               | Replacement f => field_references f
               end).


(** The test [filename.endswith('.py') and filename != '__init__.py'] of
    [load_provider_modules]. *)
Definition is_provider_file (filename : string) : bool :=
  endswith filename ".py" && negb (String.eqb filename "__init__.py").

(** The values on which [in] and subscription are defined at all. *)
Definition is_container (v : pyval) : bool :=
  match v with
  | VDict _ | VList _ | VTuple _ | VStr _ => true
  | _ => false
  end.

Definition is_dict (v : pyval) : bool :=
  match v with VDict _ => true | _ => false end.

(** [None], booleans and numbers: values with no membership test. *)
Definition is_scalar (v : pyval) : bool :=
  match v with
  | VNone | VBool _ | VInt _ | VFloat _ => true
  | _ => false
  end.

(** [isinstance(v, int)]: integers and booleans. *)
Definition is_int (v : pyval) : bool :=
  match v with VInt _ | VBool _ => true | _ => false end.

(** Text free of [{] and [}]. *)
Fixpoint no_brace (s : string) : bool :=
  match s with
  | EmptyString => true
  | String c s' =>
      negb (Ascii.eqb c "{") && negb (Ascii.eqb c "}") && no_brace s'
  end.

(** The positional index a replacement field names explicitly, if it does. *)
Definition field_index (f : field) : option Z :=
  match get_integer (field_name_split (field_name f)).1 with
  | Ok (Some i) => Some i
  | _ => None
  end.

(** The module names [load_provider_modules] imports for a directory
    listing, in listing order. *)
Fixpoint provider_names (filenames : list string) : list string :=
  match filenames with
  | [] => []
  | filename :: rest =>
      if is_provider_file filename
      then string_drop_last 3 filename :: provider_names rest
      else provider_names rest
  end.

(** ** [custom_log]

    The [logging] module keeps its loggers by name; a logger has a numeric
    level and a list of handlers.  Only what [custom_log] reads and writes is
    kept: the stream and the format string of a handler. *)

Record handler : Type := Handler {
  handler_stream : string;
  handler_format : string
}.

Record logger : Type := Logger {
  logger_level : Z;
  logger_handlers : list handler
}.

(** A logger as [logging] creates it: the root logger at [WARNING], any
    other at [NOTSET], without handlers. *)
Definition new_logger (name : string) : logger :=
  if String.eqb name "root" then Logger 30 [] else Logger 0 [].

(** The logger registered under [name], created on first use. *)
Definition logger_of (loggers : gmap string logger) (name : string) : logger :=
  default (new_logger name) (loggers !! name).

(** [logging.getLogger(name) if name else logging.getLogger()] *)
Definition get_logger_name (name : pyval) : outcome string :=
  if py_truthy name then
    match name with
    | VStr s => Ok s
    | _ => Raise (Exn TypeError "A logger name must be a string" None)
    end
  else Ok "root".

(** Two lower-case hexadecimal digits. *)
Definition hex2 (n : N) : string :=
  if (n <? 16)%N then "0" +:+ show_hex n else show_hex n.

(** [str.isprintable] of one character, on the code points below 256. *)
Definition isprintable (c : ascii) : bool :=
  let n := N_of_ascii c in
  negb ((n <? 32) || ((127 <=? n) && (n <=? 160)) || (n =? 173))%N.

Fixpoint has_char (c : ascii) (s : string) : bool :=
  match s with
  | EmptyString => false
  | String c' s' => Ascii.eqb c c' || has_char c s'
  end.

(** The body of [repr(s)] for a string, between the quotes [quote]. *)
Fixpoint repr_chars (quote : ascii) (s : string) : string :=
  match s with
  | EmptyString => ""
  | String c s' =>
      (if Ascii.eqb c quote || Ascii.eqb c "\" then String "\" (String c "")
       else if Ascii.eqb c "009" then "\t"
       else if Ascii.eqb c "010" then "\n"
       else if Ascii.eqb c "013" then "\r"
       else if isprintable c then String c ""
       else "\x" +:+ hex2 (N_of_ascii c))
      +:+ repr_chars quote s'
  end.

(** [repr(s)] for a string: double quotes only when the string has a single
    quote and no double quote. *)
Definition py_repr_str (s : string) : string :=
  let quote : ascii :=
    if has_char "'" s && negb (has_char "034" s) then "034"%char else "'"%char in
  String quote (repr_chars quote s) +:+ String quote "".

Fixpoint join_comma (parts : list string) : string :=
  match parts with
  | [] => ""
  | [x] => x
  | x :: rest => x +:+ ", " +:+ join_comma rest
  end.

(** [repr(v)].  Finite non-zero floats and [VObj] objects are not printed the
    way Python prints them: the former by a fixed text, the latter by their
    name. *)
Fixpoint py_repr (v : pyval) : string :=
  match v with
  | VNone => "None"
  | VBool b => if b then "True" else "False"
  | VInt n => show_Z n
  | VFloat (S754_zero false) => "0.0"
  | VFloat (S754_zero true) => "-0.0"
  | VFloat (S754_infinity false) => "inf"
  | VFloat (S754_infinity true) => "-inf"
  | VFloat S754_nan => "nan"
  | VFloat (S754_finite _ _ _) => "<float>"
  | VStr s => py_repr_str s
  | VList items => "[" +:+ join_comma (map py_repr items) +:+ "]"
  | VTuple items =>
      match items with
      | [x] => "(" +:+ py_repr x +:+ ",)"
      | _ => "(" +:+ join_comma (map py_repr items) +:+ ")"
      end
  | VDict entries =>
      "{" +:+
      join_comma (map (fun kv => py_repr kv.1 +:+ ": " +:+ py_repr kv.2) entries)
      +:+ "}"
  | VObj id => id
  end.

Definition level_names : list (string * Z) :=
  [("CRITICAL", 50); ("FATAL", 50); ("ERROR", 40); ("WARN", 30);
   ("WARNING", 30); ("INFO", 20); ("DEBUG", 10); ("NOTSET", 0)]%Z.

Fixpoint level_of_name (names : list (string * Z)) (name : string) : option Z :=
  match names with
  | [] => None
  | (n, l) :: rest => if String.eqb n name then Some l else level_of_name rest name
  end.

(** [logging._checkLevel(level)], as [Logger.setLevel] applies it. *)
Definition check_level (level : pyval) : outcome Z :=
  match level with
  | VInt n => Ok n
  | VBool b => Ok (if b then 1 else 0)%Z
  | VStr s =>
      match level_of_name level_names s with
      | Some l => Ok l
      | None =>
          Raise (Exn ValueError ("Unknown level: " +:+ py_repr_str s) None)
      end
  | _ =>
      Raise (Exn TypeError
               ("Level not an integer or a valid string: " +:+ py_repr level)
               None)
  end.

Definition log_format : string :=
  "%(asctime)s | %(name)s | %(module)s | %(funcName)s | %(levelname)s | %(message)s".

(** The handler [custom_log] builds: a [StreamHandler] on [sys.stdout] with
    the module's formatter. *)
Definition stdout_handler : handler := Handler "stdout" log_format.

(** [custom_log(level, name)]; the result is the name of the logger
    returned. *)
Definition custom_log (level name : pyval) (loggers : gmap string logger)
  : outcome (string * gmap string logger) :=
  key <~ get_logger_name name ;;
  let log := logger_of loggers key in
  numeric <~ check_level level ;;
  let log := Logger numeric (logger_handlers log) in
  let log := Logger (logger_level log) (logger_handlers log ++ [stdout_handler]) in
  Ok (key, <[key := log]> loggers).

(** ** A second concrete environment

    The callables and modules of [Sample], with a parser that also yields
    values that are not mappings and a [Faker] that fails in two ways. *)

Module Rough.

Definition load_yaml (content : string) : outcome pyval :=
  if String.eqb content "" then Ok VNone
  else if String.eqb content "- locale" then Ok (VList [VStr "locale"])
  else if String.eqb content "locale: xx_XX"
  then Ok (VDict [(VStr "locale", VStr "xx_XX")])
  else if String.eqb content "locale: gone"
  then Ok (VDict [(VStr "locale", VStr "gone")])
  else Raise (Exn YAMLError "could not parse" None).

Definition new_faker (locale : pyval) : outcome pyval :=
  match locale with
  | VStr s =>
      if String.eqb s "gone"
      then Raise (Exn FileNotFoundError "locale data" None)
      else Raise (Exn AttributeError "Invalid configuration for faker locale" None)
  | _ => Raise (Exn AttributeError "Invalid configuration for faker locale" None)
  end.

Definition externals : Externals := {|
  py_call := Sample.call;
  Faker := new_faker;
  yaml_load := load_yaml;
  find_module := Sample.locate;
  unix_time := fun _ r => Ok (VInt 1700000000, Rng (entropy r) (S (draws r)));
  py_round := fun v => Ok v;
  py_access := fun _ rest => Raise (Exn AttributeError rest None);
  py_convert := fun _ v => Ok v;
  py_format := Sample.show
|}.

(** A state whose files parse to unusual configurations and whose providers
    directory holds a file that cannot be imported. *)
Definition start : world := {|
  core_ns := core_ns Sample.fresh;
  provider_functions := [];
  random_state := Rng (fun n => n) 0;
  clock := VObj "2024-01-02 03:04:05";
  files := {[ "blank.yml" := ""; "list.yml" := "- locale";
              "bad.yml" := "locale: xx_XX"; "gone.yml" := "locale: gone" ]};
  providers_dir := "/pkg/providers";
  providers_listing := Some ["net.py"; "oops.py"; "web.py"];
  sys_path := [];
  sys_modules := ∅
|}.

End Rough.

(** * Properties *)

(** ** Splitting on whitespace *)

Lemma append_nil_l (t : string) : "" +:+ t = t.
Proof. reflexivity. Qed.

Lemma append_cons (a : ascii) (s t : string) :
  String a s +:+ t = String a (s +:+ t).
Proof. reflexivity. Qed.

Lemma append_snoc (s : string) (c : ascii) (t : string) :
  (s +:+ String c "") +:+ t = s +:+ String c t.
Proof.
  induction s as [|a s IH]; [reflexivity|].
  by rewrite !append_cons, IH.
Qed.

Lemma append_empty_r (s : string) : s +:+ "" = s.
Proof.
  induction s as [|a s IH]; [reflexivity|]. by rewrite append_cons, IH.
Qed.

Lemma append_assoc (s t u : string) : (s +:+ t) +:+ u = s +:+ (t +:+ u).
Proof.
  induction s as [|a s IH]; [reflexivity|]. by rewrite !append_cons, IH.
Qed.

Lemma split_from_word (word : string) :
  forall (c rest : string),
    no_space word = true ->
    split_from (Some c) (word +:+ rest) = split_from (Some (c +:+ word)) rest.
Proof.
  induction word as [|a word IH]; intros c rest Hword.
  - by rewrite append_nil_l, append_empty_r.
  - simpl in Hword. apply andb_prop in Hword as [Ha Hword].
    apply negb_true_iff in Ha. rewrite append_cons. simpl. rewrite Ha.
    rewrite IH by assumption. by rewrite append_snoc.
Qed.

Lemma is_word_inv (t : string) :
  is_word t = true ->
  exists a t', t = String a t' /\ isspace a = false /\ no_space t' = true.
Proof.
  unfold is_word. destruct t as [|a t']; simpl; [discriminate|].
  intros [Ha Ht']%andb_prop. exists a, t'. split; [reflexivity|].
  by apply negb_true_iff in Ha.
Qed.

Lemma split_from_none_word (t rest : string) :
  is_word t = true ->
  split_from None (t +:+ rest) = split_from (Some t) rest.
Proof.
  intros (a & t' & -> & Ha & Ht')%is_word_inv.
  rewrite append_cons. simpl. rewrite Ha.
  by rewrite split_from_word.
Qed.

Lemma split_from_space (t s : string) :
  split_from (Some t) (String " " s) = t :: split_from None s.
Proof. reflexivity. Qed.

Lemma split_join_space (tokens : list string) :
  Forall (fun t => is_word t = true) tokens ->
  split (join_space tokens) = tokens.
Proof.
  unfold split. induction 1 as [|t rest Ht Hrest IH]; [reflexivity|].
  destruct rest as [|t2 rest].
  - simpl. rewrite <- (append_empty_r t) at 1.
    by rewrite split_from_none_word.
  - change (join_space (t :: t2 :: rest))
      with (t +:+ String " " (join_space (t2 :: rest))).
    rewrite split_from_none_word by assumption.
    by rewrite split_from_space, IH.
Qed.

Lemma split_all_space (s : string) :
  all_space s = true -> split s = [].
Proof.
  unfold split. induction s as [|c s IH]; simpl; [reflexivity|].
  intros [Hc Hs]%andb_prop. rewrite Hc. by apply IH.
Qed.

Lemma no_space_app (s t : string) :
  no_space (s +:+ t) = no_space s && no_space t.
Proof.
  induction s as [|c s IH]; [reflexivity|].
  rewrite append_cons. simpl. by rewrite IH, andb_assoc.
Qed.

Lemma string_drop_app (s t : string) :
  string_drop (String.length s) (s +:+ t) = t.
Proof.
  induction s as [|c s IH]; [by destruct t|].
  rewrite append_cons. exact IH.
Qed.

Section Properties.
Context `{E : Externals}.

Lemma hasattr_true (m : module_ref) (name : string) (w : world) (v : pyval) :
  module_attrs m w !! name = Some v -> hasattr m name w = true.
Proof. intros H. unfold hasattr. apply bool_decide_eq_true. by exists v. Qed.

Lemma hasattr_false (m : module_ref) (name : string) (w : world) :
  module_attrs m w !! name = None -> hasattr m name w = false.
Proof.
  intros H. unfold hasattr. apply bool_decide_eq_false.
  rewrite H. by intros [? ?].
Qed.

Lemma get_function_core (w : world) (token : string) (f : pyval) :
  core_ns w !! string_drop 5 token = Some f ->
  get_function token CoreModule w =
    Ok (FuncWrapper CoreModule (string_drop 5 token), w).
Proof.
  intros Hf. unfold get_function.
  change (String.length "func_") with 5.
  by rewrite (hasattr_true CoreModule _ w f).
Qed.

Lemma call_wrapper_invokes (wr : func_wrapper) (args : list pyval) (w : world)
    (target g : pyval) :
  module_attrs (wrapped_module wr) w !! wrapped_name wr = Some target ->
  core_ns w !! "fake" = Some g ->
  call_wrapper wr args w = invoke target (g :: args) w.
Proof. intros Ht Hg. unfold call_wrapper. by rewrite Ht, Hg. Qed.

(** C1.  A function specification ["func_X a b ..."] whose [X] is an
    attribute of the core namespace is split on whitespace into the token
    [func_X] and the arguments, [X] is looked up in the core namespace, and
    the call made is [X(fake, "a", "b", ...)] with the remaining tokens
    passed as the strings they are; its result (or the exception it raises)
    is what [get_random_value] returns.  The same holds for any other
    spacing that splits into these tokens. *)
Theorem resolve_field_core_function
    (w : world) (X : string) (args : list string) (f g : pyval) :
  no_space X = true ->
  Forall (fun a => is_word a = true) args ->
  core_ns w !! X = Some f ->
  core_ns w !! "fake" = Some g ->
  split (join_space (("func_" +:+ X) :: args)) = ("func_" +:+ X) :: args /\
  forall s,
    split s = ("func_" +:+ X) :: args ->
    get_random_value (VStr s) w = invoke f (g :: (VStr <$> args)) w.
Proof.
  intros HX Hargs Hf Hg. split.
  { apply split_join_space. constructor; [|assumption].
    unfold is_word. simpl. exact HX. }
  intros s Hsplit.
  unfold get_random_value, exec_function_str. rewrite Hsplit.
  unfold bind.
  rewrite (get_function_core w ("func_" +:+ X) f) by exact Hf.
  assert (Hcall : forall xs, call_wrapper (FuncWrapper CoreModule X) xs w
                             = invoke f (g :: xs) w).
  { intros xs. by apply call_wrapper_invokes. }
  change (string_drop 5 ("func_" +:+ X)) with X.
  destruct args as [|a args]; simpl; by rewrite Hcall.
Qed.

(** C2.  For a non-empty literal list, [get_random_value] returns one of
    its elements (and only advances the random source). *)
Theorem literal_choice_member (items : list pyval) (w : world) :
  items <> [] ->
  exists v,
    get_random_value (VList items) w =
      Ok (v, set_random_state
               (Rng (entropy (random_state w)) (S (draws (random_state w)))) w)
    /\ v ∈ items.
Proof.
  intros Hne. unfold get_random_value, random_choice.
  destruct items as [|x items]; [done|].
  cbn [length]. unfold bind, randbelow.
  set (i := entropy (random_state w) (draws (random_state w))
            mod S (length items)).
  assert (Hi : i < length (x :: items)).
  { subst i. cbn [length]. apply Nat.mod_upper_bound. lia. }
  destruct (lookup_lt_is_Some_2 (x :: items) i Hi) as [v Hv].
  exists v. rewrite Hv. split; [reflexivity|].
  by apply (list_elem_of_lookup_2 _ i).
Qed.

Lemma search_providers_app (pre post : list (string * namespace)) (name : string) :
  Forall (lacks name) pre ->
  search_providers (pre ++ post) name = search_providers post name.
Proof.
  induction 1 as [|[m ns] pre Hns Hpre IH]; [reflexivity|].
  simpl. unfold lacks in Hns. simpl in Hns.
  rewrite bool_decide_eq_false_2; [exact IH|].
  rewrite Hns. by intros [? ?].
Qed.

Lemma search_providers_none (mods : list (string * namespace)) (name : string) :
  search_providers mods name = None <-> Forall (lacks name) mods.
Proof.
  induction mods as [|[m ns] mods IH]; simpl.
  - split; [constructor | reflexivity].
  - case_bool_decide as Hns.
    + split; [discriminate|]. intros Hall. inversion Hall as [|? ? Hl _].
      unfold lacks in Hl. simpl in Hl. rewrite Hl in Hns. by destruct Hns.
    + rewrite IH. split.
      * intros Hall. constructor; [|assumption].
        unfold lacks. simpl. destruct (ns !! name) eqn:Hlook; [|reflexivity].
        exfalso. apply Hns. by eexists.
      * by inversion 1.
Qed.

Lemma search_providers_head (m : string) (ns : namespace)
    (rest : list (string * namespace)) (name : string) (f : pyval) :
  ns !! name = Some f ->
  search_providers ((m, ns) :: rest) name
    = Some (FuncWrapper (ProviderModule ns) name).
Proof.
  intros Hf. simpl. rewrite bool_decide_eq_true_2; [reflexivity | by exists f].
Qed.

(** C3.  Resolution order.  The core namespace is searched first for the
    stripped name and wins whatever the providers define; only when the name
    is absent from it are the provider modules tried in registry order, and
    the first one exposing the name is taken.  The callable then invoked is
    the one of the module that won. *)
Theorem resolution_order
    (w : world) (token : string) (pre post : list (string * namespace)) :
  provider_functions w = pre ++ post ->
  Forall (lacks (string_drop 5 token)) pre ->
  (forall f,
      core_ns w !! string_drop 5 token = Some f ->
      get_function token CoreModule w
        = Ok (FuncWrapper CoreModule (string_drop 5 token), w) /\
      forall g args,
        core_ns w !! "fake" = Some g ->
        (func <- get_function token CoreModule ;; call_wrapper func args) w
          = invoke f (g :: args) w) /\
  (core_ns w !! string_drop 5 token = None ->
   forall m ns rest f,
      post = (m, ns) :: rest ->
      ns !! string_drop 5 token = Some f ->
      get_function token CoreModule w
        = Ok (FuncWrapper (ProviderModule ns) (string_drop 5 token), w) /\
      forall g args,
        core_ns w !! "fake" = Some g ->
        (func <- get_function token CoreModule ;; call_wrapper func args) w
          = invoke f (g :: args) w).
Proof.
  intros Hreg Hpre. split.
  - intros f Hf.
    pose proof (get_function_core w token f Hf) as Hget.
    split; [exact Hget|].
    intros g args Hg. unfold bind. rewrite Hget.
    by apply call_wrapper_invokes.
  - intros Hcore m ns rest f -> Hf.
    assert (Hget : get_function token CoreModule w
                   = Ok (FuncWrapper (ProviderModule ns) (string_drop 5 token), w)).
    { unfold get_function. change (String.length "func_") with 5.
      rewrite (hasattr_false CoreModule _ w) by exact Hcore.
      rewrite Hreg, search_providers_app by exact Hpre.
      by rewrite (search_providers_head m ns rest _ f). }
    split; [exact Hget|].
    intros g args Hg. unfold bind. rewrite Hget.
    by apply call_wrapper_invokes.
Qed.

(** C4, as amended.  [get_function] raises exactly when the stripped name is
    an attribute neither of the core namespace nor of any registered provider
    module; the error is a [ValueError] whose message names the stripped
    name, that is the token without its first five characters. *)
Theorem function_not_found (w : world) (token : string) (e : exn) :
  get_function token CoreModule w = Raise e <->
  (core_ns w !! string_drop 5 token = None /\
   Forall (lacks (string_drop 5 token)) (provider_functions w) /\
   e = Exn ValueError
         ("Function " +:+ string_drop 5 token +:+
          " not found in any provider modules.") None).
Proof.
  unfold get_function. change (String.length "func_") with 5.
  set (name := string_drop 5 token).
  destruct (core_ns w !! name) as [f|] eqn:Hcore.
  - rewrite (hasattr_true CoreModule name w f) by exact Hcore.
    split; [discriminate | by intros [? _]].
  - rewrite (hasattr_false CoreModule name w) by exact Hcore.
    destruct (search_providers (provider_functions w) name) as [wr|] eqn:Hs.
    + split; [discriminate|]. intros (_ & Hall & _).
      apply search_providers_none in Hall. congruence.
    + apply search_providers_none in Hs. split.
      * intros [= <-]. done.
      * intros (_ & _ & ->). reflexivity.
Qed.

(** C6.  A field value that is neither a string nor a list is rejected at
    once, whatever the state, with the [ValueError] of [get_random_value]. *)
Theorem invalid_field_specification (v : pyval) (w : world) :
  is_str v = false ->
  is_list v = false ->
  get_random_value v w =
    Raise (Exn ValueError "field value can be a string or a list" None).
Proof. destruct v; simpl; intros; try discriminate; reflexivity. Qed.

(** C9.  An empty or whitespace-only string takes the string branch, splits
    into no token at all, and indexing the first token raises [IndexError];
    the [ValueError] for invalid field values is not what comes out. *)
Theorem blank_specification_index_error (s : string) (w : world) :
  all_space s = true ->
  split s = [] /\
  get_random_value (VStr s) w =
    Raise (Exn IndexError "list index out of range" None) /\
  get_random_value (VStr s) w <>
    Raise (Exn ValueError "field value can be a string or a list" None).
Proof.
  intros Hs. pose proof (split_all_space s Hs) as Hsplit.
  assert (Hres : get_random_value (VStr s) w
                 = Raise (Exn IndexError "list index out of range" None)).
  { unfold get_random_value, exec_function_str. by rewrite Hsplit. }
  split; [exact Hsplit|]. split; [exact Hres|].
  rewrite Hres. discriminate.
Qed.

(** ** Placeholders of a template *)

Lemma output_markup_missing
    (expand : string -> auto_number -> outcome (string * auto_number))
    (args : list pyval) (kwargs : namespace) (f : field) (an : auto_number)
    (k : string) :
  field_key f = Some k ->
  kwargs !! k = None ->
  output_markup expand args kwargs f an = Raise (Exn KeyError k None).
Proof.
  unfold field_key, output_markup.
  destruct (field_name_split (field_name f)) as [first rest]. simpl.
  destruct (String.eqb first "") eqn:Hempty; [discriminate|].
  destruct (get_integer first) as [[i|]|e]; try discriminate.
  intros [= ->] Hk. simpl.
  unfold autonumber_target. rewrite Hempty. simpl.
  by rewrite Hk.
Qed.

Lemma render_items_raises
    (expand : string -> auto_number -> outcome (string * auto_number))
    (args : list pyval) (kwargs : namespace) (f : field)
    (items : list item) (err : option exn) :
  (forall an, exists e, output_markup expand args kwargs f an = Raise e) ->
  Replacement f ∈ items ->
  forall an, exists e, render_items expand args kwargs items err an = Raise e.
Proof.
  intros Hf. induction items as [|it items IH]; intros Hin an.
  - by apply elem_of_nil in Hin.
  - apply elem_of_cons in Hin as [<- | Hin].
    + simpl. destruct (Hf an) as [e ->]. by exists e.
    + destruct it as [text | f']; simpl.
      * destruct (IH Hin an) as [e ->]. by exists e.
      * destruct (output_markup expand args kwargs f' an) as [[text an']|e];
          simpl; [|by exists e].
        destruct (IH Hin an') as [e ->]. by exists e.
Qed.

Lemma render_items_app
    (expand : string -> auto_number -> outcome (string * auto_number))
    (args : list pyval) (kwargs : namespace)
    (pre rest : list item) (err : option exn) (an an' : auto_number)
    (out : string) :
  render_items expand args kwargs pre None an = Ok (out, an') ->
  render_items expand args kwargs (pre ++ rest) err an =
    let* (more, an'') := render_items expand args kwargs rest err an' in
    Ok (out +:+ more, an'').
Proof.
  revert an out. induction pre as [|it pre IH]; intros an out.
  - simpl. intros [= <- <-].
    destruct (render_items expand args kwargs rest err an) as [[more an'']|e];
      reflexivity.
  - destruct it as [text | f]; simpl.
    + destruct (render_items expand args kwargs pre None an)
        as [[out1 an1]|e] eqn:Hpre; simpl; [|discriminate].
      intros [= <- <-]. rewrite (IH _ _ Hpre).
      destruct (render_items expand args kwargs rest err an1)
        as [[more an'']|e]; simpl; [|reflexivity].
      by rewrite append_assoc.
    + destruct (output_markup expand args kwargs f an) as [[t an0]|e];
        simpl; [|discriminate].
      destruct (render_items expand args kwargs pre None an0)
        as [[out1 an1]|e] eqn:Hpre; simpl; [|discriminate].
      intros [= <- <-]. rewrite (IH _ _ Hpre).
      destruct (render_items expand args kwargs rest err an1)
        as [[more an'']|e]; simpl; [|reflexivity].
      by rewrite append_assoc.
Qed.

Lemma build_string_S (depth : nat) (args : list pyval) (kwargs : namespace)
    (input : string) (an : auto_number) :
  build_string (S depth) args kwargs input an =
    render_items (build_string depth args kwargs) args kwargs
                 (markup input).1 (markup input).2 an.
Proof. simpl. by destruct (markup input). Qed.

Lemma field_references_raise (depth : nat) (args : list pyval)
    (kwargs : namespace) (f : field) (k : string) :
  k ∈ field_references f ->
  kwargs !! k = None ->
  forall an, exists e,
    output_markup (build_string depth args kwargs) args kwargs f an = Raise e.
Proof.
  unfold field_references. intros Hk Hmiss an.
  apply elem_of_app in Hk as [Hk | Hk].
  - destruct (field_key f) as [k'|] eqn:Hkey; simpl in Hk;
      [|by apply elem_of_nil in Hk].
    apply list_elem_of_singleton in Hk as <-.
    exists (Exn KeyError k None). by apply output_markup_missing.
  - destruct (format_spec_needs_expanding f) eqn:Hexp;
      [|by apply elem_of_nil in Hk].
    unfold item_keys in Hk. apply list_elem_of_bind in Hk as (it & Hk & Hit).
    destruct it as [text | f']; [by apply elem_of_nil in Hk|].
    destruct (field_key f') as [k'|] eqn:Hkey; simpl in Hk;
      [|by apply elem_of_nil in Hk].
    apply list_elem_of_singleton in Hk as <-.
    unfold output_markup.
    destruct (field_name_split (field_name f)) as [first rest].
    destruct (get_integer first) as [index|e]; simpl; [|by exists e].
    destruct (autonumber_target first index an) as [[target an1]|e]; simpl;
      [|by exists e].
    destruct (get_field_object target args kwargs) as [obj|e]; simpl;
      [|by exists e].
    destruct (if String.eqb rest "" then Ok obj else py_access obj rest)
      as [obj1|e]; simpl; [|by exists e].
    destruct (if Ascii.eqb (conversion f) no_conversion then Ok obj1
              else do_conversion (conversion f) obj1) as [obj2|e]; simpl;
      [|by exists e].
    rewrite Hexp.
    assert (Hsub : exists e,
               build_string depth args kwargs (format_spec f) an1 = Raise e).
    { destruct depth as [|depth]; [by eexists|].
      rewrite build_string_S.
      apply (render_items_raises _ args kwargs f'); [|exact Hit].
      intros an'. exists (Exn KeyError k None).
      by apply output_markup_missing. }
    destruct Hsub as [e ->]. by exists e.
Qed.

Lemma str_format_missing (template : string) (args : list pyval)
    (kwargs : namespace) (k : string) :
  k ∈ referenced_names template ->
  kwargs !! k = None ->
  exists e, str_format template args kwargs = Raise e.
Proof.
  unfold referenced_names, str_format. intros Hk Hmiss.
  rewrite build_string_S.
  apply list_elem_of_bind in Hk as (it & Hk & Hit).
  destruct it as [text | f]; [by apply elem_of_nil in Hk|].
  destruct (render_items_raises (build_string 1 args kwargs) args kwargs f
              (markup template).1 (markup template).2
              (field_references_raise 1 args kwargs f k Hk Hmiss)
              Hit (AutoNumber ANS_INIT 0)) as [e ->].
  by exists e.
Qed.

(** ** Keyword arguments nobody asks for *)

Lemma get_field_object_mono (target : field_target) (args : list pyval)
    (used values : namespace) (v : pyval) :
  used ⊆ values ->
  get_field_object target args used = Ok v ->
  get_field_object target args values = Ok v.
Proof.
  intros Hsub. destruct target as [i | key]; simpl; [done|].
  destruct (used !! key) as [x|] eqn:Hx; [|discriminate].
  intros [= <-]. by rewrite (lookup_weaken _ _ _ _ Hx Hsub).
Qed.

Lemma output_markup_mono
    (expand1 expand2 : string -> auto_number -> outcome (string * auto_number))
    (args : list pyval) (used values : namespace) (f : field)
    (an : auto_number) (r : string * auto_number) :
  ok_preserved expand1 expand2 ->
  used ⊆ values ->
  output_markup expand1 args used f an = Ok r ->
  output_markup expand2 args values f an = Ok r.
Proof.
  intros Hexp Hsub. unfold output_markup.
  destruct (field_name_split (field_name f)) as [first rest].
  destruct (get_integer first) as [index|e]; simpl; [|discriminate].
  destruct (autonumber_target first index an) as [[target an1]|e]; simpl;
    [|discriminate].
  destruct (get_field_object target args used) as [obj|e] eqn:Hobj; simpl;
    [|discriminate].
  rewrite (get_field_object_mono _ _ _ _ _ Hsub Hobj). simpl.
  destruct (if String.eqb rest "" then Ok obj else py_access obj rest)
    as [obj1|e]; simpl; [|discriminate].
  destruct (if Ascii.eqb (conversion f) no_conversion then Ok obj1
            else do_conversion (conversion f) obj1) as [obj2|e]; simpl;
    [|discriminate].
  destruct (format_spec_needs_expanding f); [|done].
  destruct (expand1 (format_spec f) an1) as [[spec an2]|e] eqn:Hspec; simpl;
    [|discriminate].
  by rewrite (Hexp _ _ _ Hspec).
Qed.

Lemma render_items_mono
    (expand1 expand2 : string -> auto_number -> outcome (string * auto_number))
    (args : list pyval) (used values : namespace)
    (items : list item) (err : option exn) :
  ok_preserved expand1 expand2 ->
  used ⊆ values ->
  forall an r,
    render_items expand1 args used items err an = Ok r ->
    render_items expand2 args values items err an = Ok r.
Proof.
  intros Hexp Hsub. induction items as [|it items IH]; intros an r; [done|].
  destruct it as [text | f]; simpl.
  - destruct (render_items expand1 args used items err an)
      as [[out an1]|e] eqn:Hrest; simpl; [|discriminate].
    by rewrite (IH _ _ Hrest).
  - destruct (output_markup expand1 args used f an) as [[text an0]|e] eqn:Hf;
      simpl; [|discriminate].
    rewrite (output_markup_mono _ _ _ _ _ _ _ _ Hexp Hsub Hf). simpl.
    destruct (render_items expand1 args used items err an0)
      as [[out an1]|e] eqn:Hrest; simpl; [|discriminate].
    by rewrite (IH _ _ Hrest).
Qed.

Lemma build_string_mono (depth : nat) (args : list pyval)
    (used values : namespace) :
  used ⊆ values ->
  ok_preserved (build_string depth args used) (build_string depth args values).
Proof.
  intros Hsub. induction depth as [|depth IH]; intros input an r; [done|].
  rewrite !build_string_S. by apply render_items_mono.
Qed.

Lemma str_format_mono (template : string) (args : list pyval)
    (used values : namespace) (out : string) :
  used ⊆ values ->
  str_format template args used = Ok out ->
  str_format template args values = Ok out.
Proof.
  intros Hsub. unfold str_format.
  destruct (build_string 2 args used template (AutoNumber ANS_INIT 0))
    as [[o an]|e] eqn:Hb; cbn [obind]; [|discriminate].
  by rewrite (build_string_mono 2 args used values Hsub _ _ _ Hb).
Qed.

(** ** Resolving the fields of a template *)

Lemma resolve_fields_lookup (fields : list (string * pyval)) :
  forall (acc values : namespace) (w w' : world) (k : string),
    resolve_fields fields acc w = Ok (values, w') ->
    k ∉ fields.*1 ->
    values !! k = acc !! k.
Proof.
  induction fields as [|[name v] fields IH]; intros acc values w w' k.
  - by intros [= <- <-].
  - simpl. unfold bind.
    destruct (get_random_value v w) as [[x w1]|e]; [|discriminate].
    intros Hres Hk. apply not_elem_of_cons in Hk as [Hne Hk].
    rewrite (IH _ _ _ _ _ Hres Hk). by rewrite lookup_insert_ne.
Qed.

Lemma get_template_log_unfold (template : string)
    (fields : list (string * pyval)) (w : world) :
  get_template_log template fields w =
    match resolve_fields fields ∅ w with
    | Ok (values, w') =>
        match str_format template [clock w'] values with
        | Ok out => Ok (out, w')
        | Raise e => Raise e
        end
    | Raise e => Raise e
    end.
Proof.
  unfold get_template_log, bind, datetime_now, lift.
  by destruct (resolve_fields fields ∅ w) as [[values w']|e].
Qed.

(** C5, as amended.  Nothing is wrapped: a field that fails to resolve
    fails the render with its own error before any formatting; a template
    that refers to a name with no field never renders, and when everything
    before that placeholder went through the error is the [KeyError] of
    [str.format] itself, naming the placeholder; resolved fields that the
    template does not use change nothing. *)
Theorem render_missing_and_unused
    (template : string) (fields : list (string * pyval)) (w : world) :
  (forall e,
      resolve_fields fields ∅ w = Raise e ->
      get_template_log template fields w = Raise e) /\
  (forall k,
      k ∈ referenced_names template ->
      k ∉ fields.*1 ->
      exists e, get_template_log template fields w = Raise e) /\
  (forall values w' pre f post k out an,
      resolve_fields fields ∅ w = Ok (values, w') ->
      (markup template).1 = pre ++ Replacement f :: post ->
      field_key f = Some k ->
      k ∉ fields.*1 ->
      render_items (build_string 1 [clock w'] values) [clock w'] values
                   pre None (AutoNumber ANS_INIT 0) = Ok (out, an) ->
      get_template_log template fields w = Raise (Exn KeyError k None)) /\
  (forall values w' used out,
      resolve_fields fields ∅ w = Ok (values, w') ->
      used ⊆ values ->
      str_format template [clock w'] used = Ok out ->
      get_template_log template fields w = Ok (out, w')).
Proof.
  rewrite get_template_log_unfold. repeat split.
  - by intros e ->.
  - intros k Hk Hfields.
    destruct (resolve_fields fields ∅ w) as [[values w']|e] eqn:Hres;
      [|by exists e].
    assert (Hmiss : values !! k = None).
    { by rewrite (resolve_fields_lookup _ _ _ _ _ _ Hres Hfields). }
    destruct (str_format_missing template [clock w'] values k Hk Hmiss)
      as [e ->].
    by exists e.
  - intros values w' pre f post k out an Hres Hitems Hkey Hfields Hpre.
    assert (Hmiss : values !! k = None).
    { by rewrite (resolve_fields_lookup _ _ _ _ _ _ Hres Hfields). }
    rewrite Hres. unfold str_format. rewrite build_string_S, Hitems.
    rewrite (render_items_app _ _ _ _ _ _ _ _ _ Hpre).
    cbn [render_items].
    by rewrite (output_markup_missing _ _ _ _ _ k Hkey Hmiss).
  - intros values w' used out -> Hsub Hout.
    by rewrite (str_format_mono _ _ _ _ _ Hsub Hout).
Qed.

(** ** Who writes the module namespace *)

Lemma preserves_core_bind {A B} (m : py A) (k : A -> py B) :
  preserves_core m -> (forall a, preserves_core (k a)) ->
  preserves_core (bind m k).
Proof.
  intros Hm Hk w b w'. unfold bind.
  destruct (m w) as [[a w1]|e] eqn:Hmw; [|discriminate].
  intros Hkw. rewrite (Hk _ _ _ _ Hkw). by apply (Hm _ _ _ Hmw).
Qed.

Lemma preserves_core_ret {A} (a : A) : preserves_core (ret a).
Proof. by intros w a' w' [= _ <-]. Qed.

Lemma preserves_core_raise {A} (cls : exn_class) (arg : string) :
  preserves_core (@raise A cls arg).
Proof. by intros w a w'. Qed.

Lemma preserves_core_lift {A} (o : outcome A) : preserves_core (lift o).
Proof. intros w a w'. unfold lift. destruct o; [by intros [= _ <-] | done]. Qed.

Lemma preserves_core_invoke (target : pyval) (args : list pyval) :
  preserves_core (invoke target args).
Proof.
  intros w v w'. unfold invoke.
  destruct (py_call target args (random_state w)) as [[v' r]|e];
    [by intros [= _ <-] | done].
Qed.

Lemma preserves_core_call_wrapper (wr : func_wrapper) (args : list pyval) :
  preserves_core (call_wrapper wr args).
Proof.
  intros w v w'. unfold call_wrapper.
  destruct (module_attrs (wrapped_module wr) w !! wrapped_name wr); [|done].
  destruct (core_ns w !! "fake"); [|done].
  apply preserves_core_invoke.
Qed.

Lemma get_function_ok (token : string) (m : module_ref) (w w' : world)
    (wr : func_wrapper) :
  get_function token m w = Ok (wr, w') ->
  w' = w /\
  exists target, module_attrs (wrapped_module wr) w !! wrapped_name wr = Some target.
Proof.
  unfold get_function. set (name := string_drop _ token).
  unfold hasattr. case_bool_decide as Hcore.
  - intros [= <- <-]. split; [reflexivity|]. destruct Hcore as [v Hv]. by exists v.
  - generalize (provider_functions w). intros mods.
    destruct (search_providers mods name) as [wr'|] eqn:Hs; [|discriminate].
    intros [= <- <-]. split; [reflexivity|].
    induction mods as [|[mname ns] mods IH]; [discriminate|].
    simpl in Hs. case_bool_decide as Hns.
    + injection Hs as <-. destruct Hns as [v Hv]. by exists v.
    + by apply IH.
Qed.

Lemma preserves_core_get_function (token : string) (m : module_ref) :
  preserves_core (get_function token m).
Proof. intros w wr w' H. by apply get_function_ok in H as [-> _]. Qed.

Lemma preserves_core_exec_function_str (s : string) :
  preserves_core (exec_function_str s).
Proof.
  unfold exec_function_str. destruct (split s) as [|token rest].
  - apply preserves_core_raise.
  - apply preserves_core_bind; [apply preserves_core_get_function|].
    intros wr. destruct (Nat.eqb _ _); apply preserves_core_call_wrapper.
Qed.

Lemma preserves_core_random_choice (seq : list pyval) :
  preserves_core (random_choice seq).
Proof.
  unfold random_choice. destruct (length seq); [apply preserves_core_raise|].
  apply preserves_core_bind.
  - by intros w i w' [= _ <-].
  - intros i. destruct (seq !! i);
      [apply preserves_core_ret | apply preserves_core_raise].
Qed.

Lemma preserves_core_get_random_value (v : pyval) :
  preserves_core (get_random_value v).
Proof.
  destruct v; simpl; try apply preserves_core_raise.
  - apply preserves_core_exec_function_str.
  - apply preserves_core_random_choice.
Qed.

Lemma preserves_core_resolve_fields (fields : list (string * pyval)) :
  forall acc, preserves_core (resolve_fields fields acc).
Proof.
  induction fields as [|[k v] fields IH]; intros acc; simpl.
  - apply preserves_core_ret.
  - apply preserves_core_bind; [apply preserves_core_get_random_value|].
    intros x. apply IH.
Qed.

Lemma preserves_core_get_template_log (template : string)
    (fields : list (string * pyval)) :
  preserves_core (get_template_log template fields).
Proof.
  unfold get_template_log.
  apply preserves_core_bind; [apply preserves_core_resolve_fields|].
  intros values. apply preserves_core_bind; [by intros w a w' [= _ <-]|].
  intros now. apply preserves_core_lift.
Qed.

Lemma preserves_core_timestamp : preserves_core timestamp.
Proof.
  intros w v w'. unfold timestamp.
  destruct (core_ns w !! "fake") as [g|]; [|done].
  destruct (unix_time g (random_state w)) as [[t r]|e]; simpl; [|done].
  destruct (py_round t); simpl; [by intros [= _ <-] | done].
Qed.

Lemma preserves_core_import_module (name : string) :
  preserves_core (import_module name).
Proof.
  intros w m w'. unfold import_module.
  destruct (String.prefix "." name); [done|].
  destruct (String.eqb name ""); [done|].
  destruct (sys_modules w !! name); [by intros [= _ <-]|].
  destruct (find_module (sys_path w) name); simpl; [by intros [= _ <-] | done].
Qed.

Lemma preserves_core_load_modules_loop (filenames : list string) :
  forall d, preserves_core (load_modules_loop filenames d).
Proof.
  induction filenames as [|filename rest IH]; intros d; simpl.
  - apply preserves_core_ret.
  - destruct (_ && _); [|apply IH].
    apply preserves_core_bind; [apply preserves_core_import_module|].
    intros m. apply IH.
Qed.

Lemma preserves_core_load_provider_modules :
  preserves_core load_provider_modules.
Proof.
  intros w reg w'. unfold load_provider_modules.
  destruct (providers_listing _) as [filenames|]; [|done].
  intros H. by apply preserves_core_load_modules_loop in H.
Qed.

Lemma init_provider_functions_keeps_fake (w w' : world) :
  init_provider_functions w = Ok (tt, w') ->
  core_ns w' !! "fake" = core_ns w !! "fake".
Proof.
  unfold init_provider_functions, bind.
  destruct (load_provider_modules w) as [[registry w1]|e] eqn:Hload;
    [|discriminate].
  intros [= <-]. simpl. rewrite lookup_insert_ne by discriminate.
  by rewrite (preserves_core_load_provider_modules _ _ _ Hload).
Qed.

(** ** Loading a configuration *)

Lemma dict_get_contains (key : string) (entries : list (pyval * pyval)) :
  existsb (fun kv => eq_str key kv.1) entries
    = bool_decide (is_Some (dict_get key entries)).
Proof.
  induction entries as [|[k v] entries IH]; simpl; [reflexivity|].
  destruct (eq_str key k); simpl; [reflexivity | exact IH].
Qed.

Lemma load_config_body_ok (yaml_file : string) (w w' : world) (config : pyval) :
  load_config_body yaml_file w = Ok (config, w') ->
  match locale_of config with
  | Some locale => exists g, Faker locale = Ok g /\ w' = assign_fake g w
  | None => w' = w
  end.
Proof.
  unfold load_config_body, bind, open_read, lift, ret.
  destruct (files w !! yaml_file) as [content|]; [|discriminate].
  destruct (yaml_load content) as [cfg|e]; [|discriminate].
  destruct (py_contains_str "locale" cfg) as [has|e] eqn:Hhas; [|discriminate].
  destruct has.
  - destruct (py_getitem_str "locale" cfg) as [v|e] eqn:Hget; [|discriminate].
    assert (Hcfg : exists entries,
               cfg = VDict entries /\ dict_get "locale" entries = Some v).
    { destruct cfg; try discriminate. simpl in Hget.
      destruct (dict_get "locale" entries) as [v'|] eqn:Hd; [|discriminate].
      injection Hget as <-. by eexists. }
    destruct Hcfg as (entries & -> & Hd).
    destruct (py_truthy v) eqn:Htruthy.
    + destruct (Faker v) as [g|e] eqn:Hg; [|discriminate].
      intros [= <- <-]. simpl. rewrite Hd, Htruthy. by exists g.
    + intros [= <- <-]. simpl. by rewrite Hd, Htruthy.
  - intros [= <- <-].
    destruct cfg; try reflexivity. simpl in Hhas. injection Hhas as Hhas.
    rewrite dict_get_contains in Hhas. apply bool_decide_eq_false in Hhas.
    simpl. destruct (dict_get "locale" entries) as [v|]; [|reflexivity].
    exfalso. apply Hhas. by eexists.
Qed.

Lemma load_config_ok (yaml_file : string) (w w' : world) (config : pyval) :
  load_config yaml_file w = Ok (config, w') ->
  match locale_of config with
  | Some locale => exists g, Faker locale = Ok g /\ w' = assign_fake g w
  | None => w' = w
  end.
Proof.
  unfold load_config.
  destruct (load_config_body yaml_file w) as [[cfg w1]|e] eqn:Hbody.
  - intros [= <- <-]. by apply load_config_body_ok in Hbody.
  - destruct (exn_cls e); try discriminate; by intros [= <- <-].
Qed.

Lemma assign_fake_twice (g1 g2 : pyval) (w : world) :
  assign_fake g2 (assign_fake g1 w) = assign_fake g2 w.
Proof.
  unfold assign_fake, set_core_ns. simpl. by rewrite insert_insert_eq.
Qed.

Lemma fake_after_assign (g : pyval) (w : world) :
  core_ns (assign_fake g w) !! "fake" = Some g.
Proof. unfold assign_fake. simpl. apply lookup_insert_eq. Qed.

Lemma truthy_str_nonempty (s : string) :
  py_truthy (VStr s) = true <-> s <> "".
Proof.
  simpl. rewrite negb_true_iff. apply String.eqb_neq.
Qed.

Lemma none_or_parsed
    (yaml_file : string) (w w' : world) (config : pyval) :
  load_config yaml_file w = Ok (config, w') ->
  (config = VNone /\ w' = w) \/
  (config <> VNone /\
   exists content,
     files w !! yaml_file = Some content /\ yaml_load content = Ok config).
Proof.
  unfold load_config.
  destruct (load_config_body yaml_file w) as [[cfg w1]|e] eqn:Hbody.
  - intros [= <- <-]. right.
    unfold load_config_body, bind, open_read, lift, ret in Hbody.
    destruct (files w !! yaml_file) as [content|] eqn:Hfile; [|discriminate].
    destruct (yaml_load content) as [cfg'|e] eqn:Hyaml; [|discriminate].
    destruct (py_contains_str "locale" cfg') as [has|e] eqn:Hhas;
      [|discriminate].
    assert (Hnone : cfg' <> VNone) by (intros ->; discriminate Hhas).
    assert (cfg = cfg') as ->.
    { destruct has.
      - destruct (py_getitem_str "locale" cfg'); [|discriminate].
        destruct (py_truthy a).
        + destruct (Faker a); [|discriminate]. congruence.
        + congruence.
      - congruence. }
    split; [exact Hnone | by exists content].
  - destruct (exn_cls e); try discriminate; intros [= <- <-]; by left.
Qed.

Lemma load_config_mapping
    (yaml_file content : string) (config : pyval) (w : world) :
  files w !! yaml_file = Some content ->
  yaml_load content = Ok config ->
  is_dict config = true ->
  load_config_body yaml_file w =
    match locale_of config with
    | Some locale =>
        match Faker locale with
        | Ok g => Ok (config, assign_fake g w)
        | Raise e => Raise e
        end
    | None => Ok (config, w)
    end.
Proof.
  intros Hfile Hyaml Hdict.
  destruct config as [| | | | | | | entries |]; try discriminate Hdict.
  unfold load_config_body, bind, open_read, lift, ret.
  rewrite Hfile, Hyaml. simpl. rewrite dict_get_contains.
  destruct (dict_get "locale" entries) as [v|]; simpl; [|reflexivity].
  destruct (py_truthy v); [|reflexivity].
  by destruct (Faker v).
Qed.

Lemma locale_of_is_dict (config locale : pyval) :
  locale_of config = Some locale -> is_dict config = true.
Proof. by destruct config. Qed.

Lemma load_config_files (yaml_file : string) (w w' : world) (config : pyval) :
  load_config yaml_file w = Ok (config, w') -> files w' = files w.
Proof.
  intros H%load_config_ok.
  destruct (locale_of config); [by destruct H as (g & _ & ->) | by rewrite H].
Qed.

(** C7, as amended.  A file that parses to a mapping with a true [locale]
    makes [load_config] rebind the global [fake] to [Faker(locale)] when the
    constructor returns, and in no other case: with no true [locale] the
    state is returned as it was, and when the constructor raises nothing is
    bound ([None] comes back for a [FileNotFoundError] or [YAMLError], any
    other exception reaches the caller).  Whatever this load did, a later
    one with a good locale leaves exactly its own generator bound, and a
    wrapper called afterwards, whenever it was resolved, passes that
    generator as first argument. *)
Theorem locale_rebinds_generator
    (yaml_file content : string) (config : pyval) (w : world) :
  files w !! yaml_file = Some content ->
  yaml_load content = Ok config ->
  match locale_of config with
  | Some locale =>
      match Faker locale with
      | Ok g => load_config yaml_file w = Ok (config, assign_fake g w)
      | Raise e =>
          load_config yaml_file w =
            match exn_cls e with
            | FileNotFoundError | YAMLError => Ok (VNone, w)
            | _ => Raise e
            end
      end
  | None =>
      (is_dict config = true -> load_config yaml_file w = Ok (config, w)) /\
      forall c w1, load_config yaml_file w = Ok (c, w1) -> w1 = w
  end /\
  forall later content2 config2 locale2 g2,
    files w !! later = Some content2 ->
    yaml_load content2 = Ok config2 ->
    locale_of config2 = Some locale2 ->
    Faker locale2 = Ok g2 ->
    (forall c1 w1,
        load_config yaml_file w = Ok (c1, w1) ->
        load_config later w1 = Ok (config2, assign_fake g2 w)) /\
    core_ns (assign_fake g2 w) !! "fake" = Some g2 /\
    forall wr target args,
      module_attrs (wrapped_module wr) (assign_fake g2 w) !! wrapped_name wr
        = Some target ->
      call_wrapper wr args (assign_fake g2 w)
        = invoke target (g2 :: args) (assign_fake g2 w).
Proof.
  intros Hfile Hyaml. split.
  - destruct (locale_of config) as [locale|] eqn:Hlocale.
    + unfold load_config.
      rewrite (load_config_mapping yaml_file content config w Hfile Hyaml);
        [|by eapply locale_of_is_dict].
      rewrite Hlocale. by destruct (Faker locale) as [g|e].
    + split.
      * intros Hdict. unfold load_config.
        rewrite (load_config_mapping yaml_file content config w Hfile Hyaml Hdict).
        by rewrite Hlocale.
      * intros c w1 Hload.
        destruct (none_or_parsed yaml_file w w1 c Hload)
          as [[_ ->] | [_ Hparsed]]; [reflexivity|].
        destruct Hparsed as (content' & Hfile' & Hyaml').
        assert (c = config) as -> by congruence.
        apply load_config_ok in Hload. by rewrite Hlocale in Hload.
  - intros later content2 config2 locale2 g2 Hfile2 Hyaml2 Hlocale2 Hfaker2.
    split; [|split].
    + intros c1 w1 Hload. unfold load_config.
      rewrite (load_config_mapping later content2 config2 w1);
        [|by rewrite (load_config_files _ _ _ _ Hload) | done
         |by eapply locale_of_is_dict].
      rewrite Hlocale2, Hfaker2. simpl. f_equal. f_equal.
      apply load_config_ok in Hload.
      destruct (locale_of c1); [|by rewrite Hload].
      destruct Hload as (g1 & _ & ->). apply assign_fake_twice.
    + apply fake_after_assign.
    + intros wr target args Htarget.
      apply call_wrapper_invokes; [exact Htarget | apply fake_after_assign].
Qed.

(** C10.  While the global [fake] is unbound, every wrapper that
    [get_function] returns and the core [timestamp] fail with [NameError]
    before anything is called, so no function specification resolves; and
    [fake] is still unbound after every operation of the module that
    returns, except a load whose configuration has a true [locale]: the
    module binds the name nowhere else. *)
Theorem fake_unbound_until_configured (w : world) :
  core_ns w !! "fake" = None ->
  (forall token m wr w' args,
      get_function token m w = Ok (wr, w') ->
      w' = w /\
      call_wrapper wr args w'
        = Raise (Exn NameError "name 'fake' is not defined" None)) /\
  (forall wr args, is_ok (call_wrapper wr args w) = false) /\
  timestamp w = Raise (Exn NameError "name 'fake' is not defined" None) /\
  (forall s, is_ok (get_random_value (VStr s) w) = false) /\
  (forall yaml_file config w',
      load_config yaml_file w = Ok (config, w') ->
      match locale_of config with
      | Some locale => exists g, Faker locale = Ok g /\ w' = assign_fake g w
      | None => core_ns w' !! "fake" = None
      end) /\
  (forall v a w',
      get_random_value v w = Ok (a, w') -> core_ns w' !! "fake" = None) /\
  (forall template fields out w',
      get_template_log template fields w = Ok (out, w') ->
      core_ns w' !! "fake" = None) /\
  (forall registry w',
      load_provider_modules w = Ok (registry, w') ->
      core_ns w' !! "fake" = None) /\
  (forall w',
      init_provider_functions w = Ok (tt, w') -> core_ns w' !! "fake" = None).
Proof.
  intros Hfake.
  assert (Hcall : forall wr args, is_ok (call_wrapper wr args w) = false).
  { intros wr args. unfold call_wrapper.
    destruct (module_attrs (wrapped_module wr) w !! wrapped_name wr);
      [|reflexivity].
    by rewrite Hfake. }
  assert (Hwrapper : forall token m wr w' args,
             get_function token m w = Ok (wr, w') ->
             w' = w /\
             call_wrapper wr args w'
               = Raise (Exn NameError "name 'fake' is not defined" None)).
  { intros token m wr w' args [-> [target Ht]]%get_function_ok.
    split; [reflexivity|]. unfold call_wrapper. by rewrite Ht, Hfake. }
  split; [exact Hwrapper|]. split; [exact Hcall|].
  split; [unfold timestamp; by rewrite Hfake|].
  split.
  { intros s. simpl. unfold exec_function_str.
    destruct (split s) as [|token rest]; [reflexivity|].
    unfold bind.
    destruct (get_function token CoreModule w) as [[wr w']|e] eqn:Hget;
      [|reflexivity].
    destruct (Hwrapper _ _ _ _ [] Hget) as [-> _].
    destruct (Nat.eqb _ _); apply Hcall. }
  split.
  { intros yaml_file config w' Hload. apply load_config_ok in Hload.
    destruct (locale_of config); [exact Hload | by rewrite Hload]. }
  split.
  { intros v a w' H. by rewrite (preserves_core_get_random_value _ _ _ _ H). }
  split.
  { intros template fields out w' H.
    by rewrite (preserves_core_get_template_log _ _ _ _ _ H). }
  split.
  { intros registry w' H.
    by rewrite (preserves_core_load_provider_modules _ _ _ H). }
  intros w' H. by rewrite (init_provider_functions_keeps_fake _ _ H).
Qed.

(** ** Loading the providers twice *)

Lemma dict_set_keys {V} (k : string) (v : V) (d : list (string * V)) :
  (dict_set k v d).*1 = if bool_decide (k ∈ d.*1) then d.*1 else d.*1 ++ [k].
Proof.
  induction d as [|[k' v'] d IH]; [reflexivity|]. cbn [dict_set].
  destruct (String.eqb k' k) eqn:Heq.
  - apply String.eqb_eq in Heq as ->. rewrite !fmap_cons. cbn [fst].
    rewrite bool_decide_eq_true_2; [reflexivity | apply list_elem_of_here].
  - apply String.eqb_neq in Heq. rewrite !fmap_cons, IH. cbn [fst].
    case_bool_decide as Hin.
    + rewrite bool_decide_eq_true_2; [reflexivity | by apply list_elem_of_further].
    + rewrite bool_decide_eq_false_2; [reflexivity|].
      intros [?|?]%elem_of_cons; congruence.
Qed.

Lemma dict_set_NoDup {V} (k : string) (v : V) (d : list (string * V)) :
  NoDup d.*1 -> NoDup (dict_set k v d).*1.
Proof.
  intros Hd. rewrite dict_set_keys. case_bool_decide as Hin; [exact Hd|].
  apply NoDup_app. split; [exact Hd|]. split.
  - intros x Hx ->%list_elem_of_singleton. contradiction.
  - apply NoDup_singleton.
Qed.

Lemma import_module_ok (name : string) (w w' : world) (m : namespace) :
  import_module name w = Ok (m, w') ->
  String.prefix "." name = false /\ String.eqb name "" = false /\
  sys_modules w ⊆ sys_modules w' /\ sys_modules w' !! name = Some m /\
  providers_listing w' = providers_listing w /\
  providers_dir w' = providers_dir w /\
  provider_functions w' = provider_functions w.
Proof.
  unfold import_module.
  destruct (String.prefix "." name); [discriminate|].
  destruct (String.eqb name ""); [discriminate|].
  destruct (sys_modules w !! name) as [m'|] eqn:Hcached.
  - intros [= <- <-]. by repeat split.
  - destruct (find_module (sys_path w) name) as [m'|e]; simpl; [|discriminate].
    intros [= <- <-]. simpl. repeat split.
    + by apply insert_subseteq.
    + apply lookup_insert_eq.
Qed.

Lemma import_module_cached (name : string) (w : world) (m : namespace) :
  String.prefix "." name = false ->
  String.eqb name "" = false ->
  sys_modules w !! name = Some m ->
  import_module name w = Ok (m, w).
Proof. intros H1 H2 H3. unfold import_module. by rewrite H1, H2, H3. Qed.

Lemma load_modules_loop_ok (filenames : list string) :
  forall d w d' w',
    load_modules_loop filenames d w = Ok (d', w') ->
    sys_modules w ⊆ sys_modules w' /\
    providers_listing w' = providers_listing w /\
    providers_dir w' = providers_dir w /\
    provider_functions w' = provider_functions w /\
    (NoDup d.*1 -> NoDup d'.*1) /\
    forall w2, sys_modules w' ⊆ sys_modules w2 ->
               load_modules_loop filenames d w2 = Ok (d', w2).
Proof.
  induction filenames as [|filename rest IH]; intros d w d' w'; simpl.
  - intros [= <- <-]. by repeat split.
  - destruct (_ && _).
    + unfold bind.
      destruct (import_module _ w) as [[m w1]|e] eqn:Himp; [|discriminate].
      intros Hrest.
      apply import_module_ok in Himp
        as (Hdot & Hempty & Hgrow & Hcached & Hl & Hd & Hp).
      apply IH in Hrest as (Hgrow' & Hl' & Hd' & Hp' & Hnodup & Hagain).
      split; [by etrans|]. split; [congruence|]. split; [congruence|].
      split; [congruence|]. split.
      * intros Hnd. by apply Hnodup, dict_set_NoDup.
      * intros w2 Hw2.
        rewrite (import_module_cached _ w2 m Hdot Hempty).
        -- by apply Hagain.
        -- eapply lookup_weaken; [exact Hcached|]. by etrans.
    + apply IH.
Qed.

(** C8.  Once [load_provider_modules] has returned a registry, calling it
    again returns the very same registry, same names in the same order bound
    to the same modules, with no name twice; the import cache is at a fixed
    point and the installed global registry is not touched. *)
Theorem load_provider_modules_idempotent
    (w w1 : world) (registry : list (string * namespace)) :
  load_provider_modules w = Ok (registry, w1) ->
  NoDup registry.*1 /\
  provider_functions w1 = provider_functions w /\
  exists w2,
    load_provider_modules w1 = Ok (registry, w2) /\
    sys_modules w2 = sys_modules w1 /\
    provider_functions w2 = provider_functions w1.
Proof.
  unfold load_provider_modules.
  set (w0 := set_sys_path (providers_dir w :: sys_path w) w).
  destruct (providers_listing w0) as [filenames|] eqn:Hlist; [|discriminate].
  intros Hloop.
  apply load_modules_loop_ok in Hloop as (Hgrow & Hl & Hd & Hp & Hnodup & Hagain).
  split; [apply Hnodup; constructor|]. split; [exact Hp|].
  set (w2 := set_sys_path (providers_dir w1 :: sys_path w1) w1).
  exists w2.
  assert (Hlist2 : providers_listing w2 = Some filenames).
  { change (providers_listing w2) with (providers_listing w1). congruence. }
  rewrite Hlist2. split; [by apply Hagain|]. by split.
Qed.

End Properties.

(** * Further properties *)

Section Further.
Context `{E : Externals}.

(** ** Tokens *)

Lemma split_from_leading (blank s : string) :
  all_space blank = true ->
  split_from None (blank +:+ s) = split_from None s.
Proof.
  induction blank as [|c blank IH]; [done|].
  intros Hblank. simpl in Hblank. apply andb_prop in Hblank as [Hc Hblank].
  rewrite append_cons. simpl. rewrite Hc. by apply IH.
Qed.

Lemma split_from_trailing (s blank : string) :
  all_space blank = true ->
  forall cur, split_from cur (s +:+ blank) = split_from cur s.
Proof.
  intros Hblank. induction s as [|c s IH]; intros cur.
  - rewrite append_nil_l. simpl.
    destruct blank as [|c blank]; [done|].
    simpl in Hblank. apply andb_prop in Hblank as [Hc Hblank].
    simpl. rewrite Hc.
    pose proof (split_all_space blank Hblank) as Hnil. unfold split in Hnil.
    rewrite Hnil. by destruct cur.
  - rewrite append_cons. simpl. destruct (isspace c); [|apply IH].
    destruct cur; by rewrite IH.
Qed.

Lemma is_word_snoc (word : string) (c : ascii) :
  no_space word = true ->
  isspace c = false ->
  is_word (word +:+ String c "") = true.
Proof.
  intros Hword Hc. unfold is_word. rewrite no_space_app, Hword. simpl.
  rewrite Hc. simpl. rewrite andb_true_r.
  destruct word; reflexivity.
Qed.

Lemma is_word_no_space (word : string) :
  is_word word = true -> no_space word = true.
Proof. unfold is_word. by intros [_ ?]%andb_prop. Qed.

Lemma split_from_words (s : string) :
  forall cur,
    match cur with Some word => is_word word = true | None => True end ->
    Forall (fun t => is_word t = true) (split_from cur s).
Proof.
  induction s as [|c s IH]; intros cur Hcur; simpl.
  - destruct cur; [by constructor | constructor].
  - destruct (isspace c) eqn:Hc.
    + destruct cur; [constructor; [done|]|]; by apply IH.
    + apply IH. apply is_word_snoc; [|done].
      destruct cur; [by apply is_word_no_space | reflexivity].
Qed.

(** X20.  Every token [split] returns is a non-empty string free of
    whitespace, so no argument reaching a provider function is empty or
    contains a space; joining the tokens with single spaces and splitting
    again gives the same tokens. *)
Theorem tokens_are_words (s : string) :
  Forall (fun t => is_word t = true) (split s) /\
  split (join_space (split s)) = split s.
Proof.
  assert (H : Forall (fun t => is_word t = true) (split s))
    by (by apply split_from_words).
  split; [exact H | by apply split_join_space].
Qed.

(** X4.  Whitespace before and after a function specification is ignored:
    the specification resolves exactly as without it. *)
Theorem surrounding_whitespace_ignored
    (before s after : string) (w : world) :
  all_space before = true ->
  all_space after = true ->
  split (before +:+ s +:+ after) = split s /\
  get_random_value (VStr (before +:+ s +:+ after)) w
    = get_random_value (VStr s) w.
Proof.
  intros Hb Ha.
  assert (Hsplit : split (before +:+ s +:+ after) = split s).
  { unfold split. rewrite split_from_leading by done.
    by apply split_from_trailing. }
  split; [exact Hsplit|].
  simpl. unfold exec_function_str. by rewrite Hsplit.
Qed.

(** ** Resolution *)

Lemma string_drop_prefix (p X : string) :
  String.length p = 5 -> string_drop 5 (p +:+ X) = X.
Proof. intros <-. apply string_drop_app. Qed.

(** X3.  The prefix is not checked: [get_function] drops the first five
    characters of the token whatever they are, so any five characters in
    place of [func_] resolve to the same function. *)
Theorem prefix_is_not_checked
    (p X : string) (m : module_ref) (w : world) :
  String.length p = 5 ->
  get_function (p +:+ X) m w = get_function ("func_" +:+ X) m w.
Proof.
  intros Hp. unfold get_function. change (String.length "func_") with 5.
  rewrite (string_drop_prefix p X Hp).
  by rewrite (string_drop_prefix "func_" X eq_refl).
Qed.

(** X1.  A function specification whose name is absent from the core
    namespace is served by the first provider module, in registry order,
    that exposes the name: the call made is that module's function applied
    to [fake] and then the remaining tokens as strings, and its result or
    exception is what [get_random_value] returns. *)
Theorem resolve_field_provider_function
    (w : world) (s X : string) (args : list string)
    (pre post : list (string * namespace)) (m : string) (ns : namespace)
    (f g : pyval) :
  split s = ("func_" +:+ X) :: args ->
  core_ns w !! X = None ->
  provider_functions w = pre ++ (m, ns) :: post ->
  Forall (lacks X) pre ->
  ns !! X = Some f ->
  core_ns w !! "fake" = Some g ->
  get_random_value (VStr s) w = invoke f (g :: (VStr <$> args)) w.
Proof.
  intros Hsplit Hcore Hreg Hpre Hf Hg.
  simpl. unfold exec_function_str. rewrite Hsplit. unfold bind.
  assert (Hget : get_function ("func_" +:+ X) CoreModule w
                 = Ok (FuncWrapper (ProviderModule ns) X, w)).
  { unfold get_function. change (String.length "func_") with 5.
    change (string_drop 5 ("func_" +:+ X)) with X.
    rewrite (hasattr_false CoreModule X w) by exact Hcore.
    rewrite Hreg, search_providers_app by exact Hpre.
    by rewrite (search_providers_head m ns post X f). }
  rewrite Hget.
  assert (Hcall : forall xs,
             call_wrapper (FuncWrapper (ProviderModule ns) X) xs w
             = invoke f (g :: xs) w).
  { intros xs. by apply call_wrapper_invokes. }
  destruct args as [|a args]; simpl; by rewrite Hcall.
Qed.

(** X2.  A function specification whose name is defined nowhere fails with
    the [ValueError] of [get_function] whether or not a generator is bound
    and whatever its arguments: resolution comes before [fake] is read. *)
Theorem unknown_function_reported_first
    (w : world) (s token : string) (args : list string) :
  split s = token :: args ->
  core_ns w !! string_drop 5 token = None ->
  Forall (lacks (string_drop 5 token)) (provider_functions w) ->
  get_random_value (VStr s) w =
    Raise (Exn ValueError
             ("Function " +:+ string_drop 5 token +:+
              " not found in any provider modules.") None).
Proof.
  intros Hsplit Hcore Hall.
  simpl. unfold exec_function_str. rewrite Hsplit. unfold bind, get_function.
  change (String.length "func_") with 5.
  rewrite (hasattr_false CoreModule _ w) by exact Hcore.
  apply search_providers_none in Hall. by rewrite Hall.
Qed.

(** ** The resolved mapping *)

Lemma resolve_fields_app (pre post : list (string * pyval)) :
  forall acc w,
    resolve_fields (pre ++ post) acc w =
      match resolve_fields pre acc w with
      | Ok (values, w') => resolve_fields post values w'
      | Raise e => Raise e
      end.
Proof.
  induction pre as [|[k v] pre IH]; intros acc w; [reflexivity|].
  simpl. unfold bind.
  destruct (get_random_value v w) as [[x w1]|e]; [apply IH | reflexivity].
Qed.

Lemma resolve_fields_keys (fields : list (string * pyval)) :
  forall acc values w w' k,
    resolve_fields fields acc w = Ok (values, w') ->
    is_Some (values !! k) <-> (k ∈ fields.*1 \/ is_Some (acc !! k)).
Proof.
  induction fields as [|[name v] fields IH]; intros acc values w w' k.
  - intros [= <- <-]. rewrite fmap_nil, elem_of_nil. tauto.
  - simpl. unfold bind.
    destruct (get_random_value v w) as [[x w1]|e]; [|discriminate].
    intros Hres. rewrite (IH _ _ _ _ k Hres), elem_of_cons.
    rewrite lookup_insert_is_Some.
    destruct (decide (name = k)) as [->|Hne]; intuition (auto; congruence).
Qed.

(** X7.  When every field resolves, the mapping handed to [str.format] has
    exactly the field names as keys: each field got a value and nothing else
    is there. *)
Theorem resolved_mapping_keys
    (fields : list (string * pyval)) (values : namespace) (w w' : world)
    (k : string) :
  resolve_fields fields ∅ w = Ok (values, w') ->
  is_Some (values !! k) <-> k ∈ fields.*1.
Proof.
  intros Hres. rewrite (resolve_fields_keys _ _ _ _ _ k Hres).
  rewrite lookup_empty. split; [|by left].
  intros [H | [? H]]; [exact H | discriminate H].
Qed.

(** X8.  Fields are resolved in order and the first one that fails ends the
    render with its own error, whatever the template and whatever follows;
    the fields before it have been resolved, those after it are not
    tried. *)
Theorem first_failing_field_ends_render
    (template : string) (pre post : list (string * pyval))
    (k : string) (v : pyval) (w w' : world) (values : namespace) (e : exn) :
  resolve_fields pre ∅ w = Ok (values, w') ->
  get_random_value v w' = Raise e ->
  get_template_log template (pre ++ (k, v) :: post) w = Raise e.
Proof.
  intros Hpre Hv. rewrite get_template_log_unfold, resolve_fields_app, Hpre.
  simpl. unfold bind. by rewrite Hv.
Qed.

(** X5.  A field whose list of choices is empty makes the render fail with
    the [IndexError] of [random.choice], whatever the template, as soon as
    the fields before it have resolved. *)
Theorem empty_choice_list_ends_render
    (template : string) (pre post : list (string * pyval))
    (k : string) (w w' : world) (values : namespace) :
  resolve_fields pre ∅ w = Ok (values, w') ->
  get_template_log template (pre ++ (k, VList []) :: post) w
    = Raise (Exn IndexError "Cannot choose from an empty sequence" None).
Proof.
  intros Hpre. rewrite get_template_log_unfold, resolve_fields_app, Hpre.
  reflexivity.
Qed.

(** ** Templates *)

Lemma no_brace_step (lit : string) (c : ascii) :
  negb (Ascii.eqb c "{") && negb (Ascii.eqb c "}") = true ->
  scan_step (SLit lit) c = inr ([], SLit (snoc lit c)).
Proof.
  intros [H1 H2]%andb_prop.
  apply negb_true_iff, Ascii.eqb_neq in H1.
  apply negb_true_iff, Ascii.eqb_neq in H2.
  destruct c as [[] [] [] [] [] [] [] []]; try reflexivity; congruence.
Qed.

Lemma scan_no_brace (s : string) :
  forall lit, no_brace s = true ->
              scan (SLit lit) s = ([Literal (lit +:+ s)], None).
Proof.
  induction s as [|c s IH]; intros lit Hs.
  - by rewrite append_empty_r.
  - simpl in Hs. apply andb_prop in Hs as [Hc Hs].
    cbn [scan]. rewrite (no_brace_step lit c Hc).
    rewrite (IH _ Hs). unfold snoc. by rewrite append_snoc.
Qed.

(** X9.  A template without braces is copied as it stands: once the fields
    have resolved, the rendered line is the template itself, and the fields
    only cost their random draws. *)
Theorem brace_free_template_verbatim
    (template : string) (fields : list (string * pyval))
    (values : namespace) (w w' : world) :
  no_brace template = true ->
  resolve_fields fields ∅ w = Ok (values, w') ->
  get_template_log template fields w = Ok (template, w').
Proof.
  intros Hb Hres. rewrite get_template_log_unfold, Hres.
  unfold str_format. rewrite build_string_S. unfold markup.
  rewrite (scan_no_brace template "" Hb). simpl.
  by rewrite append_empty_r.
Qed.

Lemma output_markup_out_of_range
    (expand : string -> auto_number -> outcome (string * auto_number))
    (arg : pyval) (kwargs : namespace) (f : field) (i : Z) :
  field_index f = Some i ->
  (1 <= i)%Z ->
  forall an, exists e, output_markup expand [arg] kwargs f an = Raise e.
Proof.
  unfold field_index, output_markup. intros Hi Hpos an.
  destruct (field_name_split (field_name f)) as [first rest]. simpl in Hi.
  destruct (get_integer first) as [[j|]|e] eqn:Hint; try discriminate.
  injection Hi as ->. simpl.
  destruct (autonumber_target first (Some i) an) as [[target an1]|e] eqn:Ht;
    simpl; [|by eexists].
  assert (target = ByIndex i) as ->.
  { unfold autonumber_target in Ht.
    destruct (String.eqb first "") eqn:Hempty.
    - destruct first; [discriminate Hint | discriminate Hempty].
    - simpl in Ht. destruct (an_mode an); simpl in Ht; congruence. }
  unfold get_field_object.
  destruct (i <? Z.of_nat (length [arg]))%Z eqn:Hlt.
  - apply Z.ltb_lt in Hlt. simpl in Hlt. lia.
  - simpl. by eexists.
Qed.

(** X19.  The render timestamp is the only positional argument: a template
    with a replacement field that names a positional index of one or more
    never renders, even when a field carries that number as its name. *)
Theorem only_index_zero_is_positional
    (template : string) (fields : list (string * pyval)) (w : world)
    (f : field) (i : Z) :
  Replacement f ∈ (markup template).1 ->
  field_index f = Some i ->
  (1 <= i)%Z ->
  exists e, get_template_log template fields w = Raise e.
Proof.
  intros Hin Hi Hpos. rewrite get_template_log_unfold.
  destruct (resolve_fields fields ∅ w) as [[values w']|e]; [|by exists e].
  unfold str_format. rewrite build_string_S.
  destruct (render_items_raises (build_string 1 [clock w'] values)
              [clock w'] values f (markup template).1 (markup template).2
              (output_markup_out_of_range _ (clock w') values f i Hi Hpos)
              Hin (AutoNumber ANS_INIT 0)) as [e ->].
  by exists e.
Qed.

(** ** Configuration files *)


(** X11.  A configuration that is not a mapping never rebinds the
    generator: [load_config] either returns it with the state untouched or
    raises a [TypeError]; for [None] (an empty file), a boolean or a number
    it raises the [TypeError] of the membership test, which names the type
    of the value. *)
Theorem non_mapping_configuration
    (yaml_file content : string) (config : pyval) (w : world) :
  files w !! yaml_file = Some content ->
  yaml_load content = Ok config ->
  is_dict config = false ->
  (load_config yaml_file w = Ok (config, w) \/
   exists msg, load_config yaml_file w = Raise (Exn TypeError msg None)) /\
  (is_scalar config = true ->
   load_config yaml_file w
     = Raise (Exn TypeError
                ("argument of type '" +:+ type_name config +:+
                 "' is not iterable") None)).
Proof.
  intros Hfile Hyaml Hdict.
  unfold load_config, load_config_body, bind, open_read, lift, ret.
  rewrite Hfile, Hyaml.
  destruct config as [| b | n | x | str | items | items | entries | id];
    try discriminate Hdict; simpl;
    try (split; [right; by eexists | reflexivity]).
  - destruct (is_substring "locale" str); simpl;
      (split; [|discriminate]); [right; by eexists | by left].
  - destruct (existsb (eq_str "locale") items); simpl;
      (split; [|discriminate]); [right; by eexists | by left].
  - destruct (existsb (eq_str "locale") items); simpl;
      (split; [|discriminate]); [right; by eexists | by left].
Qed.

Lemma locale_of_inv (config locale : pyval) :
  locale_of config = Some locale ->
  exists entries,
    config = VDict entries /\ dict_get "locale" entries = Some locale /\
    py_truthy locale = true.
Proof.
  destruct config; try discriminate. simpl.
  destruct (dict_get "locale" entries) as [v|] eqn:Hget; [|discriminate].
  destruct (py_truthy v) eqn:Htruthy; [|discriminate].
  intros [= <-]. by exists entries.
Qed.

(** X12.  When the configuration has a locale but [Faker] rejects it, the
    generator is not rebound: a [FileNotFoundError] or [YAMLError] raised by
    the constructor is swallowed like a missing file and [None] is
    returned, any other exception reaches the caller. *)
Theorem generator_construction_errors
    (yaml_file content : string) (config locale : pyval) (e : exn)
    (w : world) :
  files w !! yaml_file = Some content ->
  yaml_load content = Ok config ->
  locale_of config = Some locale ->
  Faker locale = Raise e ->
  load_config yaml_file w =
    match exn_cls e with
    | FileNotFoundError | YAMLError => Ok (VNone, w)
    | _ => Raise e
    end.
Proof.
  intros Hfile Hyaml (entries & -> & Hget & Htruthy)%locale_of_inv Hfaker.
  unfold load_config, load_config_body, bind, open_read, lift, ret.
  rewrite Hfile, Hyaml. simpl.
  rewrite dict_get_contains, Hget. simpl.
  rewrite Htruthy, Hfaker. reflexivity.
Qed.

(** X13.  [None] is never the result of a load that went through: when
    [load_config] returns [None] the state is untouched, and any other value
    it returns is the object the parser produced from the file. *)
Theorem none_means_not_loaded
    (yaml_file : string) (w w' : world) (config : pyval) :
  load_config yaml_file w = Ok (config, w') ->
  (config = VNone /\ w' = w) \/
  (config <> VNone /\
   exists content,
     files w !! yaml_file = Some content /\ yaml_load content = Ok config).
Proof.
  unfold load_config.
  destruct (load_config_body yaml_file w) as [[cfg w1]|e] eqn:Hbody.
  - intros [= <- <-]. right.
    unfold load_config_body, bind, open_read, lift, ret in Hbody.
    destruct (files w !! yaml_file) as [content|] eqn:Hfile; [|discriminate].
    destruct (yaml_load content) as [cfg'|e] eqn:Hyaml; [|discriminate].
    destruct (py_contains_str "locale" cfg') as [has|e] eqn:Hhas;
      [|discriminate].
    assert (Hnone : cfg' <> VNone) by (intros ->; discriminate Hhas).
    assert (cfg = cfg') as ->.
    { destruct has.
      - destruct (py_getitem_str "locale" cfg'); [|discriminate].
        destruct (py_truthy a).
        + destruct (Faker a); [|discriminate]. congruence.
        + congruence.
      - congruence. }
    split; [exact Hnone | by exists content].
  - destruct (exn_cls e); try discriminate; intros [= <- <-]; by left.
Qed.

(** ** Provider discovery *)

Lemma import_module_sys_path (name : string) (w w' : world) (m : namespace) :
  import_module name w = Ok (m, w') -> sys_path w' = sys_path w.
Proof.
  unfold import_module.
  destruct (String.prefix "." name); [discriminate|].
  destruct (String.eqb name ""); [discriminate|].
  destruct (sys_modules w !! name); [by intros [= _ <-]|].
  destruct (find_module (sys_path w) name); simpl; [|discriminate].
  by intros [= _ <-].
Qed.

Lemma load_modules_loop_sys_path (filenames : list string) :
  forall d w d' w',
    load_modules_loop filenames d w = Ok (d', w') -> sys_path w' = sys_path w.
Proof.
  induction filenames as [|filename rest IH]; intros d w d' w'; simpl.
  - by intros [= _ <-].
  - destruct (_ && _); [|apply IH]. unfold bind.
    destruct (import_module _ w) as [[m w1]|e] eqn:Himp; [|discriminate].
    intros Hrest. rewrite (IH _ _ _ _ Hrest).
    by apply import_module_sys_path in Himp.
Qed.

Lemma load_modules_loop_app (pre post : list string) :
  forall d w,
    load_modules_loop (pre ++ post) d w =
      match load_modules_loop pre d w with
      | Ok (d', w') => load_modules_loop post d' w'
      | Raise e => Raise e
      end.
Proof.
  induction pre as [|filename pre IH]; intros d w; [reflexivity|].
  simpl. destruct (_ && _); [|apply IH]. unfold bind.
  destruct (import_module _ w) as [[m w1]|e]; [apply IH | reflexivity].
Qed.

(** X14.  Every call of [load_provider_modules] that returns has put the
    providers directory at the head of [sys.path]; a second call puts it
    there a second time. *)
Theorem search_path_grows_on_every_load
    (w w1 w2 : world) (registry1 registry2 : list (string * namespace)) :
  load_provider_modules w = Ok (registry1, w1) ->
  load_provider_modules w1 = Ok (registry2, w2) ->
  sys_path w1 = providers_dir w :: sys_path w /\
  sys_path w2 = providers_dir w :: providers_dir w :: sys_path w.
Proof.
  assert (Hone : forall u u' reg,
             load_provider_modules u = Ok (reg, u') ->
             sys_path u' = providers_dir u :: sys_path u /\
             providers_dir u' = providers_dir u).
  { intros u u' reg. unfold load_provider_modules.
    destruct (providers_listing _) as [filenames|]; [|discriminate].
    intros Hloop. split.
    - by apply load_modules_loop_sys_path in Hloop.
    - by apply load_modules_loop_ok in Hloop as (_ & _ & Hd & _). }
  intros H1 H2. apply Hone in H1 as [Hp1 Hd1]. apply Hone in H2 as [Hp2 _].
  split; [exact Hp1|]. by rewrite Hp2, Hd1, Hp1.
Qed.

Lemma string_take_drop (n : nat) (s : string) :
  string_take n s +:+ string_drop n s = s.
Proof.
  revert s. induction n as [|n IH]; intros s; [reflexivity|].
  destruct s as [|c s]; [reflexivity|].
  simpl. by rewrite append_cons, IH.
Qed.

Lemma provider_file_name (filename : string) :
  is_provider_file filename = true ->
  filename = string_drop_last 3 filename +:+ ".py".
Proof.
  unfold is_provider_file, endswith, string_drop_last.
  intros [Hpy _]%andb_prop. apply String.eqb_eq in Hpy.
  change (String.length ".py") with 3 in Hpy.
  rewrite <- (string_take_drop (String.length filename - 3) filename) at 1.
  by rewrite Hpy.
Qed.

Lemma provider_names_elem (name : string) (filenames : list string) :
  name ∈ provider_names filenames ->
  exists filename,
    filename ∈ filenames /\ is_provider_file filename = true /\
    name = string_drop_last 3 filename.
Proof.
  induction filenames as [|f rest IH]; simpl.
  - by intros ?%elem_of_nil.
  - destruct (is_provider_file f) eqn:Hf.
    + intros [-> | Hin]%elem_of_cons.
      * exists f. split; [apply list_elem_of_here | by split].
      * destruct (IH Hin) as (f' & ? & ? & ?). exists f'.
        split; [by apply list_elem_of_further | by split].
    + intros Hin. destruct (IH Hin) as (f' & ? & ? & ?). exists f'.
      split; [by apply list_elem_of_further | by split].
Qed.

Lemma provider_names_NoDup (filenames : list string) :
  NoDup filenames -> NoDup (provider_names filenames).
Proof.
  induction 1 as [|f rest Hf Hrest IH]; simpl; [constructor|].
  destruct (is_provider_file f) eqn:Hprov; [|exact IH].
  constructor; [|exact IH].
  intros (f' & Hin & Hprov' & Heq)%provider_names_elem. apply Hf.
  rewrite (provider_file_name f Hprov), Heq.
  by rewrite <- (provider_file_name f' Hprov').
Qed.

Lemma load_modules_loop_keys (filenames : list string) :
  forall d w d' w',
    load_modules_loop filenames d w = Ok (d', w') ->
    NoDup (d.*1 ++ provider_names filenames) ->
    d'.*1 = d.*1 ++ provider_names filenames.
Proof.
  induction filenames as [|filename rest IH]; intros d w d' w'; simpl.
  - intros [= <- _] _. by rewrite app_nil_r.
  - fold (is_provider_file filename).
    destruct (is_provider_file filename); [|apply IH]. unfold bind.
    destruct (import_module _ w) as [[m w1]|e]; [|discriminate].
    intros Hrest Hnodup.
    assert (Hfresh : string_drop_last 3 filename ∉ d.*1).
    { apply NoDup_app in Hnodup as (_ & Hdisj & _).
      intros Hin. apply (Hdisj _ Hin), list_elem_of_here. }
    assert (Hkeys : (dict_set (string_drop_last 3 filename) m d).*1
                    = d.*1 ++ [string_drop_last 3 filename]).
    { rewrite dict_set_keys. by rewrite bool_decide_eq_false_2. }
    rewrite (IH _ _ _ _ Hrest); rewrite Hkeys, <- app_assoc; [done|].
    exact Hnodup.
Qed.

(** X15.  For a directory listing without repeated names the registry keys
    are, in listing order, the names of the files that end in [.py] and are
    not [__init__.py], each without its [.py]; every other file is
    skipped. *)
Theorem registry_keys_follow_listing
    (w w1 : world) (registry : list (string * namespace))
    (listing : list string) :
  load_provider_modules w = Ok (registry, w1) ->
  providers_listing w = Some listing ->
  NoDup listing ->
  registry.*1 = provider_names listing.
Proof.
  unfold load_provider_modules.
  change (providers_listing (set_sys_path _ w)) with (providers_listing w).
  intros Hload Hlist Hnodup. rewrite Hlist in Hload.
  apply load_modules_loop_keys in Hload; [exact Hload|].
  by apply provider_names_NoDup.
Qed.

(** X16.  Discovery stops at the first module that fails to import: its
    error is the error of [load_provider_modules], and no registry comes
    back, whatever files follow. *)
Theorem first_failing_import_ends_load
    (w w' : world) (pre post : list string) (filename : string)
    (d : list (string * namespace)) (e : exn) :
  providers_listing w = Some (pre ++ filename :: post) ->
  load_modules_loop pre []
    (set_sys_path (providers_dir w :: sys_path w) w) = Ok (d, w') ->
  is_provider_file filename = true ->
  import_module (string_drop_last 3 filename) w' = Raise e ->
  load_provider_modules w = Raise e.
Proof.
  intros Hlist Hpre Hprov Himp. unfold load_provider_modules.
  change (providers_listing (set_sys_path _ w)) with (providers_listing w).
  rewrite Hlist, load_modules_loop_app, Hpre. simpl.
  fold (is_provider_file filename). rewrite Hprov. unfold bind.
  by rewrite Himp.
Qed.

Lemma elem_of_dict_set {V} (k k' : string) (v v' : V) (d : list (string * V)) :
  (k', v') ∈ dict_set k v d -> (k', v') = (k, v) \/ (k', v') ∈ d.
Proof.
  induction d as [|[k0 v0] d IH]; simpl.
  - intros ->%list_elem_of_singleton. by left.
  - destruct (String.eqb k0 k) eqn:Heq.
    + apply String.eqb_eq in Heq as ->.
      intros [-> | Hin]%elem_of_cons; [by left|].
      right. by apply list_elem_of_further.
    + intros [-> | Hin]%elem_of_cons; [right; apply list_elem_of_here|].
      destruct (IH Hin) as [? | ?]; [by left|].
      right. by apply list_elem_of_further.
Qed.

Lemma dict_set_has_key {V} (k : string) (v : V) (d : list (string * V)) :
  k ∈ (dict_set k v d).*1.
Proof.
  rewrite dict_set_keys. case_bool_decide as Hin; [exact Hin|].
  apply elem_of_app. right. apply list_elem_of_here.
Qed.

Lemma dict_set_keeps_keys {V} (k k' : string) (v : V) (d : list (string * V)) :
  k' ∈ d.*1 -> k' ∈ (dict_set k v d).*1.
Proof.
  intros Hin. rewrite dict_set_keys. case_bool_decide; [exact Hin|].
  apply elem_of_app. by left.
Qed.

Lemma load_modules_loop_cache (filenames : list string) :
  forall d w d' w',
    load_modules_loop filenames d w = Ok (d', w') ->
    (forall k m, (k, m) ∈ d -> sys_modules w !! k = Some m) ->
    (forall k m, (k, m) ∈ d' -> sys_modules w' !! k = Some m) /\
    (forall k, k ∈ d.*1 \/ k ∈ provider_names filenames -> k ∈ d'.*1).
Proof.
  induction filenames as [|filename rest IH]; intros d w d' w'; simpl.
  - intros [= <- <-] Hd. split; [exact Hd|].
    intros k [Hk | Hk]; [exact Hk | by apply elem_of_nil in Hk].
  - fold (is_provider_file filename).
    destruct (is_provider_file filename).
    + unfold bind.
      destruct (import_module _ w) as [[m w1]|e] eqn:Himp; [|discriminate].
      intros Hrest Hd.
      apply import_module_ok in Himp as (_ & _ & Hgrow & Hcached & _).
      destruct (IH _ _ _ _ Hrest) as [Hcache Hkeys].
      { intros k' m' [[= -> ->] | Hin]%elem_of_dict_set; [exact Hcached|].
        eapply lookup_weaken; [by apply Hd | exact Hgrow]. }
      split; [exact Hcache|].
      intros k [Hk | [-> | Hk]%elem_of_cons]; apply Hkeys.
      * left. by apply dict_set_keeps_keys.
      * left. apply dict_set_has_key.
      * by right.
    + intros Hrest Hd. destruct (IH _ _ _ _ Hrest Hd) as [Hcache Hkeys].
      split; [exact Hcache|]. intros k Hk. by apply Hkeys.
Qed.

(** X17.  The registry and the import cache agree: every module in the
    registry is the one [sys.modules] holds under that name when the load
    returns, and what was cached before the call is still cached; so a
    provider file whose name was already imported is bound to the module
    imported earlier, not to the file in the providers directory. *)
Theorem registry_agrees_with_import_cache
    (w w1 : world) (registry : list (string * namespace)) :
  load_provider_modules w = Ok (registry, w1) ->
  sys_modules w ⊆ sys_modules w1 /\
  (forall name m, (name, m) ∈ registry -> sys_modules w1 !! name = Some m) /\
  (forall name m0 m,
      sys_modules w !! name = Some m0 -> (name, m) ∈ registry -> m = m0).
Proof.
  unfold load_provider_modules.
  destruct (providers_listing _) as [filenames|]; [|discriminate].
  intros Hloop.
  pose proof (load_modules_loop_ok _ _ _ _ _ Hloop) as (Hgrow & _).
  destruct (load_modules_loop_cache _ _ _ _ _ Hloop) as [Hcache _].
  { intros k m Hin. by apply elem_of_nil in Hin. }
  split; [exact Hgrow|]. split; [exact Hcache|].
  intros name m0 m Hbefore Hin.
  pose proof (Hcache _ _ Hin) as Hafter.
  pose proof (lookup_weaken _ _ _ _ Hbefore Hgrow) as Hkept.
  simpl in Hkept. congruence.
Qed.

Lemma search_providers_found (mods : list (string * namespace))
    (m : string) (ns : namespace) (X : string) (f : pyval) :
  (m, ns) ∈ mods -> ns !! X = Some f ->
  exists wr, search_providers mods X = Some wr.
Proof.
  intros Hin Hf.
  destruct (search_providers mods X) as [wr|] eqn:Hs; [by exists wr|].
  apply search_providers_none in Hs.
  rewrite Forall_forall in Hs. specialize (Hs _ Hin).
  unfold lacks in Hs. simpl in Hs. congruence.
Qed.

(** X18.  Once the module-level initialisation has installed the registry,
    every provider file of the directory has its module in the registry,
    and every attribute of such a module resolves through [get_function],
    to the core, an earlier module or that module. *)
Theorem discovered_functions_resolve
    (w w1 : world) (listing : list string) (filename : string) :
  init_provider_functions w = Ok (tt, w1) ->
  providers_listing w = Some listing ->
  filename ∈ listing ->
  is_provider_file filename = true ->
  exists ns,
    (string_drop_last 3 filename, ns) ∈ provider_functions w1 /\
    sys_modules w1 !! string_drop_last 3 filename = Some ns /\
    forall X f,
      ns !! X = Some f ->
      exists wr, get_function ("func_" +:+ X) CoreModule w1 = Ok (wr, w1).
Proof.
  unfold init_provider_functions, bind, load_provider_modules.
  change (providers_listing (set_sys_path _ w)) with (providers_listing w).
  intros Hinit Hlist Hin Hprov. rewrite Hlist in Hinit.
  destruct (load_modules_loop listing [] _) as [[registry w']|e] eqn:Hloop;
    [|discriminate].
  injection Hinit as <-.
  destruct (load_modules_loop_cache _ _ _ _ _ Hloop) as [Hcache Hkeys].
  { intros k m H. by apply elem_of_nil in H. }
  assert (Hkey : string_drop_last 3 filename ∈ registry.*1).
  { apply Hkeys. right. clear -Hin Hprov.
    induction Hin as [f rest | f f' rest Hin IH]; simpl.
    - rewrite Hprov. apply list_elem_of_here.
    - destruct (is_provider_file f'); [apply list_elem_of_further|]; by apply IH. }
  apply list_elem_of_fmap in Hkey as ([name ns] & Hname & Hreg).
  simpl in Hname. subst name. exists ns.
  split; [exact Hreg|]. split; [by apply Hcache|].
  intros X f Hf. unfold get_function.
  change (string_drop (String.length "func_") ("func_" +:+ X)) with X.
  destruct (hasattr CoreModule X _); [by eexists|].
  cbn [provider_functions set_core_ns set_provider_functions].
  destruct (search_providers_found registry _ ns X f Hreg Hf) as [wr ->].
  by exists wr.
Qed.

(** ** Logging *)

(** X21.  Each call of [custom_log] appends one more stdout handler to the
    logger it configures and none is ever removed: after two calls for the
    same name the logger holds two such handlers after those it had, so
    every record is written twice; its level is the one of the last call
    and every other logger is as before. *)
Theorem custom_log_handlers_accumulate
    (level1 level2 name : pyval) (loggers loggers1 loggers2 : gmap string logger)
    (key1 key2 : string) :
  custom_log level1 name loggers = Ok (key1, loggers1) ->
  custom_log level2 name loggers1 = Ok (key2, loggers2) ->
  key2 = key1 /\
  check_level level2 = Ok (logger_level (logger_of loggers2 key1)) /\
  logger_handlers (logger_of loggers2 key1)
    = logger_handlers (logger_of loggers key1)
        ++ [stdout_handler; stdout_handler] /\
  forall other, other <> key1 -> loggers2 !! other = loggers !! other.
Proof.
  unfold custom_log.
  destruct (get_logger_name name) as [key|e]; simpl; [|discriminate].
  destruct (check_level level1) as [l1|e]; simpl; [|discriminate].
  intros [= <- <-].
  destruct (check_level level2) as [l2|e]; simpl; [|discriminate].
  intros [= <- <-].
  split; [reflexivity|]. unfold logger_of.
  rewrite !lookup_insert_eq. simpl. rewrite ?lookup_insert_eq. simpl.
  split; [reflexivity|]. split.
  - exact (eq_sym (app_assoc _ [stdout_handler] [stdout_handler])).
  - intros other Hne. by rewrite !lookup_insert_ne.
Qed.

(** X22.  [custom_log] refuses a level that [logging] cannot use, whatever
    the logger name: a level name it does not know with the [ValueError]
    that quotes the name, a level that is neither an integer nor a string
    with a [TypeError], which for [None] reads as below. *)
Theorem custom_log_rejects_bad_levels
    (level name : pyval) (loggers : gmap string logger) (key : string) :
  get_logger_name name = Ok key ->
  (forall s, level = VStr s -> level_of_name level_names s = None ->
             custom_log level name loggers
               = Raise (Exn ValueError
                          ("Unknown level: " +:+ py_repr_str s) None)) /\
  (is_str level = false -> is_int level = false ->
   exists msg, custom_log level name loggers = Raise (Exn TypeError msg None)) /\
  (level = VNone ->
   custom_log level name loggers
     = Raise (Exn TypeError
                "Level not an integer or a valid string: None" None)).
Proof.
  intros Hkey. unfold custom_log. rewrite Hkey. simpl.
  split; [|split].
  - intros s -> Hs. simpl. by rewrite Hs.
  - intros Hstr Hint.
    destruct level; try discriminate; simpl; by eexists.
  - by intros ->.
Qed.

End Further.

(** * The statements on the concrete environment *)

Import Sample.

Lemma resolve_field_core_function_witness :
  no_space "echo" = true /\
  Forall (fun a => is_word a = true) ["1"; "10"] /\
  core_ns Sample.configured !! "echo" = Some (VObj "echo") /\
  core_ns Sample.configured !! "fake" = Some (VObj "Faker(en_US)") /\
  get_random_value (VStr "func_echo   1	10 ") Sample.configured
    = invoke (VObj "echo") [VObj "Faker(en_US)"; VStr "1"; VStr "10"]
             Sample.configured.
Proof.
  assert (h1 : no_space "echo" = true) by reflexivity.
  assert (h2 : Forall (fun a => is_word a = true) ["1"; "10"])
    by (repeat constructor).
  assert (h3 : core_ns Sample.configured !! "echo" = Some (VObj "echo"))
    by (vm_compute; reflexivity).
  assert (h4 : core_ns Sample.configured !! "fake" = Some (VObj "Faker(en_US)"))
    by (vm_compute; reflexivity).
  split; [exact h1|]. split; [exact h2|]. split; [exact h3|].
  split; [exact h4|].
  apply (resolve_field_core_function Sample.configured "echo" ["1"; "10"]
           (VObj "echo") (VObj "Faker(en_US)") h1 h2 h3 h4).
  vm_compute. reflexivity.
Defined.

Lemma literal_choice_member_witness :
  [VStr "alice"; VStr "bob"] <> [] /\
  exists v,
    get_random_value (VList [VStr "alice"; VStr "bob"]) Sample.fresh =
      Ok (v, set_random_state
               (Rng (entropy (random_state Sample.fresh))
                    (S (draws (random_state Sample.fresh)))) Sample.fresh)
    /\ v ∈ [VStr "alice"; VStr "bob"].
Proof.
  assert (h : [VStr "alice"; VStr "bob"] <> []) by discriminate.
  split; [exact h|].
  exact (literal_choice_member [VStr "alice"; VStr "bob"] Sample.fresh h).
Defined.

Lemma resolution_order_witness :
  provider_functions Sample.configured
    = [("net", Sample.net_module)] ++ [("web", Sample.web_module)] /\
  Forall (lacks (string_drop 5 "func_randuri")) [("net", Sample.net_module)] /\
  get_function "func_randuri" CoreModule Sample.configured
    = Ok (FuncWrapper (ProviderModule Sample.web_module) "randuri",
          Sample.configured).
Proof.
  assert (h1 : provider_functions Sample.configured
               = [("net", Sample.net_module)] ++ [("web", Sample.web_module)])
    by reflexivity.
  assert (h2 : Forall (lacks (string_drop 5 "func_randuri"))
                      [("net", Sample.net_module)]).
  { constructor; [vm_compute; reflexivity | constructor]. }
  split; [exact h1|]. split; [exact h2|].
  refine (proj1 (proj2 (resolution_order Sample.configured "func_randuri"
                          _ _ h1 h2) _ "web" Sample.web_module [] (VObj "echo")
                       eq_refl _)).
  - vm_compute. reflexivity.
  - vm_compute. reflexivity.
Defined.

Lemma invalid_field_specification_witness :
  is_str (VInt 5) = false /\ is_list (VInt 5) = false /\
  get_random_value (VInt 5) Sample.fresh =
    Raise (Exn ValueError "field value can be a string or a list" None).
Proof.
  split; [reflexivity|]. split; [reflexivity|].
  exact (invalid_field_specification (VInt 5) Sample.fresh eq_refl eq_refl).
Defined.

Lemma blank_specification_index_error_witness :
  all_space "  " = true /\
  get_random_value (VStr "  ") Sample.configured =
    Raise (Exn IndexError "list index out of range" None).
Proof.
  assert (h : all_space "  " = true) by reflexivity.
  split; [exact h|].
  exact (proj1 (proj2 (blank_specification_index_error "  "
                         Sample.configured h))).
Defined.

Lemma locale_rebinds_generator_witness :
  files fresh !! "en.yml" = Some "locale: en_US" /\
  load_config "en.yml" fresh
    = Ok (VDict [(VStr "locale", VStr "en_US")],
          assign_fake (VObj "Faker(en_US)") fresh) /\
  load_config "fr.yml" (assign_fake (VObj "Faker(en_US)") fresh)
    = Ok (VDict [(VStr "locale", VStr "fr_FR")],
          assign_fake (VObj "Faker(fr_FR)") fresh).
Proof.
  assert (h1 : files fresh !! "en.yml" = Some "locale: en_US")
    by (vm_compute; reflexivity).
  assert (h2 : files fresh !! "fr.yml" = Some "locale: fr_FR")
    by (vm_compute; reflexivity).
  pose proof (locale_rebinds_generator "en.yml" "locale: en_US"
                (VDict [(VStr "locale", VStr "en_US")]) fresh h1 eq_refl)
    as [Hfirst Hlater].
  split; [exact h1|]. split; [exact Hfirst|].
  exact (proj1 (Hlater "fr.yml" "locale: fr_FR"
                  (VDict [(VStr "locale", VStr "fr_FR")])
                  (VStr "fr_FR") (VObj "Faker(fr_FR)")
                  h2 eq_refl eq_refl eq_refl) _ _ Hfirst).
Defined.

Lemma fake_unbound_until_configured_witness :
  core_ns Sample.fresh !! "fake" = None /\
  timestamp Sample.fresh =
    Raise (Exn NameError "name 'fake' is not defined" None) /\
  is_ok (get_random_value (VStr "func_randint 1 10") Sample.fresh) = false.
Proof.
  assert (h : core_ns Sample.fresh !! "fake" = None) by (vm_compute; reflexivity).
  split; [exact h|].
  pose proof (fake_unbound_until_configured Sample.fresh h)
    as (_ & _ & Htime & Hspec & _).
  split; [exact Htime | exact (Hspec "func_randint 1 10")].
Defined.

Lemma load_provider_modules_idempotent_witness :
  exists w1,
    load_provider_modules Sample.fresh
      = Ok ([("net", Sample.net_module); ("web", Sample.web_module)], w1) /\
    exists w2,
      load_provider_modules w1
        = Ok ([("net", Sample.net_module); ("web", Sample.web_module)], w2).
Proof.
  destruct (load_provider_modules Sample.fresh) as [[registry w1]|e] eqn:Hload;
    vm_compute in Hload; [|discriminate].
  injection Hload as <- <-.
  eexists. split; [reflexivity|].
  edestruct (load_provider_modules_idempotent Sample.fresh) as (_ & _ & w2 & H2 & _).
  { vm_compute. reflexivity. }
  exists w2. exact H2.
Defined.

Lemma function_not_found_witness :
  core_ns fresh !! string_drop 5 "func_doesNotExist" = None /\
  Forall (lacks (string_drop 5 "func_doesNotExist")) (provider_functions fresh) /\
  get_function "func_doesNotExist" CoreModule fresh
    = Raise (Exn ValueError
               ("Function " +:+ string_drop 5 "func_doesNotExist" +:+
                " not found in any provider modules.") None).
Proof.
  assert (h1 : core_ns fresh !! string_drop 5 "func_doesNotExist" = None)
    by (vm_compute; reflexivity).
  assert (h2 : Forall (lacks (string_drop 5 "func_doesNotExist"))
                      (provider_functions fresh)).
  { repeat constructor; vm_compute; reflexivity. }
  split; [exact h1|]. split; [exact h2|].
  apply (proj2 (function_not_found fresh "func_doesNotExist" _)).
  split; [exact h1|]. split; [exact h2 | reflexivity].
Defined.

Lemma render_missing_and_unused_witness :
  get_template_log "{0} - {user}" [("host", VList [VStr "web01"])] fresh
    = Raise (Exn KeyError "user" None) /\
  exists w',
    get_template_log "{0} - {host}"
        [("host", VList [VStr "web01"]); ("extra", VList [VStr "x"])] fresh
      = Ok ("2024-01-02 03:04:05 - web01", w').
Proof.
  split.
  - refine (proj1 (proj2 (proj2 (render_missing_and_unused
              "{0} - {user}" [("host", VList [VStr "web01"])] fresh)))
            _ _
            [Literal ""; Replacement (Field "0" no_conversion "" false);
             Literal " - "]
            (Field "user" no_conversion "" false) [Literal ""] "user"
            _ _ _ _ _ _ _).
    + vm_compute. reflexivity.
    + vm_compute. reflexivity.
    + vm_compute. reflexivity.
    + intros [H | H]%elem_of_cons; [discriminate H | by apply elem_of_nil in H].
    + vm_compute. reflexivity.
  - eexists.
    refine (proj2 (proj2 (proj2 (render_missing_and_unused
              "{0} - {host}"
              [("host", VList [VStr "web01"]); ("extra", VList [VStr "x"])]
              fresh)))
            (<["extra" := VStr "x"]> (<["host" := VStr "web01"]> ∅)) _
            (<["host" := VStr "web01"]> ∅) _ _ _ _).
    + vm_compute. reflexivity.
    + apply insert_subseteq. vm_compute. reflexivity.
    + vm_compute. reflexivity.
Defined.

(** C4, the claim as worded: the error raised for [func_doesNotExist] does
    not mention that token, only the stripped name. *)
Lemma function_not_found_names_stripped_name :
  get_function "func_doesNotExist" CoreModule Sample.fresh
    = Raise (Exn ValueError
               "Function doesNotExist not found in any provider modules." None)
  /\ is_substring "func_doesNotExist"
       "Function doesNotExist not found in any provider modules." = false.
Proof. split; vm_compute; reflexivity. Qed.

(** C7, the claim as worded: a configuration with a present, non-empty
    [locale] that [Faker] rejects is loaded without the generator being
    rebound; the load raises, or returns [None], and [fake] stays unbound. *)
Lemma locale_present_generator_not_rebound :
  (@yaml_load Rough.externals "locale: xx_XX"
     = Ok (VDict [(VStr "locale", VStr "xx_XX")])) /\
  (locale_of (VDict [(VStr "locale", VStr "xx_XX")]) = Some (VStr "xx_XX")) /\
  (load_config (E := Rough.externals) "bad.yml" Rough.start
     = Raise (Exn AttributeError "Invalid configuration for faker locale" None))
  /\
  (locale_of (VDict [(VStr "locale", VStr "gone")]) = Some (VStr "gone")) /\
  (load_config (E := Rough.externals) "gone.yml" Rough.start
     = Ok (VNone, Rough.start)) /\
  (core_ns Rough.start !! "fake" = None).
Proof. repeat split; vm_compute; reflexivity. Qed.

(** C5, the claim as worded: with a placeholder that no field provides, the
    error that reaches the caller is the [KeyError] of [str.format] itself,
    with no cause attached, and when a field is invalid it is the error of
    [get_random_value], raised before any formatting. *)
Lemma render_error_is_not_wrapped :
  "user" ∈ referenced_names "{0} - {user}" /\
  get_template_log "{0} - {user}" [("host", VList [VStr "web01"])] Sample.fresh
    = Raise (Exn KeyError "user" None) /\
  exn_cause (Exn KeyError "user" None) = None /\
  get_template_log "{0} - {user}" [("host", VInt 5)] Sample.fresh
    = Raise (Exn ValueError "field value can be a string or a list" None).
Proof.
  split; [vm_compute; apply list_elem_of_here|].
  split; [vm_compute; reflexivity|].
  split; [reflexivity | vm_compute; reflexivity].
Qed.

(** * The further properties on the concrete environments *)

Lemma resolve_field_provider_function_witness :
  get_random_value (VStr "func_randuri a") configured
    = invoke (VObj "echo") [VObj "Faker(en_US)"; VStr "a"] configured.
Proof.
  apply (resolve_field_provider_function configured "func_randuri a" "randuri"
           ["a"] [("net", net_module)] [] "web" web_module
           (VObj "echo") (VObj "Faker(en_US)")).
  - vm_compute. reflexivity.
  - vm_compute. reflexivity.
  - reflexivity.
  - constructor; [vm_compute; reflexivity | constructor].
  - vm_compute. reflexivity.
  - vm_compute. reflexivity.
Defined.

Lemma unknown_function_reported_first_witness :
  get_random_value (VStr "func_nothing 1 2") fresh
    = Raise (Exn ValueError
               ("Function " +:+ string_drop 5 "func_nothing" +:+
                " not found in any provider modules.") None).
Proof.
  apply (unknown_function_reported_first fresh "func_nothing 1 2"
           "func_nothing" ["1"; "2"]).
  - vm_compute. reflexivity.
  - vm_compute. reflexivity.
  - constructor; [vm_compute; reflexivity|].
    constructor; [vm_compute; reflexivity | constructor].
Defined.

Lemma prefix_is_not_checked_witness :
  String.length "abcde" = 5 /\
  get_function ("abcde" +:+ "randint") CoreModule fresh
    = get_function ("func_" +:+ "randint") CoreModule fresh.
Proof.
  split; [reflexivity|].
  exact (prefix_is_not_checked "abcde" "randint" CoreModule fresh eq_refl).
Defined.

Lemma surrounding_whitespace_ignored_witness :
  all_space "  " = true /\ all_space " " = true /\
  get_random_value (VStr ("  " +:+ "func_echo 1" +:+ " ")) configured
    = get_random_value (VStr "func_echo 1") configured.
Proof.
  split; [reflexivity|]. split; [reflexivity|].
  exact (proj2 (surrounding_whitespace_ignored "  " "func_echo 1" " "
                  configured eq_refl eq_refl)).
Defined.

Lemma empty_choice_list_ends_render_witness :
  get_template_log "{0} {host} {user}"
      ([("host", VList [VStr "web01"])] ++ [("user", VList [])]) fresh
    = Raise (Exn IndexError "Cannot choose from an empty sequence" None).
Proof.
  destruct (resolve_fields [("host", VList [VStr "web01"])] ∅ fresh)
    as [[values w']|e] eqn:Hpre; [|vm_compute in Hpre; discriminate Hpre].
  exact (empty_choice_list_ends_render "{0} {host} {user}"
           [("host", VList [VStr "web01"])] [] "user" fresh w' values Hpre).
Defined.

Lemma resolved_mapping_keys_witness :
  exists values w',
    resolve_fields [("host", VList [VStr "web01"])] ∅ fresh = Ok (values, w') /\
    (is_Some (values !! "host")
     <-> "host" ∈ [("host", VList [VStr "web01"])].*1).
Proof.
  destruct (resolve_fields [("host", VList [VStr "web01"])] ∅ fresh)
    as [[values w']|e] eqn:Hres; [|vm_compute in Hres; discriminate Hres].
  exists values, w'. split; [reflexivity|].
  exact (resolved_mapping_keys _ values fresh w' "host" Hres).
Defined.

Lemma first_failing_field_ends_render_witness :
  get_template_log "{0} {host}"
      ([("host", VList [VStr "web01"])] ++ [("port", VInt 80)]) fresh
    = Raise (Exn ValueError "field value can be a string or a list" None).
Proof.
  destruct (resolve_fields [("host", VList [VStr "web01"])] ∅ fresh)
    as [[values w']|e] eqn:Hpre; [|vm_compute in Hpre; discriminate Hpre].
  exact (first_failing_field_ends_render "{0} {host}"
           [("host", VList [VStr "web01"])] [] "port" (VInt 80) fresh w' values
           _ Hpre eq_refl).
Defined.

Lemma brace_free_template_verbatim_witness :
  no_brace "service started" = true /\
  exists w',
    get_template_log "service started" [("host", VList [VStr "web01"])] fresh
      = Ok ("service started", w').
Proof.
  split; [reflexivity|].
  destruct (resolve_fields [("host", VList [VStr "web01"])] ∅ fresh)
    as [[values w']|e] eqn:Hres; [|vm_compute in Hres; discriminate Hres].
  exists w'.
  exact (brace_free_template_verbatim "service started" _ values fresh w'
           eq_refl Hres).
Defined.

Lemma only_index_zero_is_positional_witness :
  exists e,
    get_template_log "{1}" [("1", VList [VStr "one"])] fresh = Raise e.
Proof.
  apply (only_index_zero_is_positional "{1}" _ fresh
           (Field "1" no_conversion "" false) 1).
  - vm_compute. apply list_elem_of_further, list_elem_of_here.
  - reflexivity.
  - lia.
Defined.


Lemma non_mapping_configuration_witness :
  load_config (E := Rough.externals) "blank.yml" Rough.start
    = Raise (Exn TypeError "argument of type 'NoneType' is not iterable" None).
Proof.
  refine (proj2 (non_mapping_configuration (E := Rough.externals)
                   "blank.yml" "" VNone Rough.start _ _ eq_refl) eq_refl).
  - vm_compute. reflexivity.
  - reflexivity.
Defined.

Lemma generator_construction_errors_witness :
  load_config (E := Rough.externals) "bad.yml" Rough.start
    = Raise (Exn AttributeError "Invalid configuration for faker locale" None)
  /\ load_config (E := Rough.externals) "gone.yml" Rough.start
    = Ok (VNone, Rough.start).
Proof.
  split.
  - refine (generator_construction_errors (E := Rough.externals)
              "bad.yml" "locale: xx_XX" _ (VStr "xx_XX") _ Rough.start
              _ eq_refl eq_refl eq_refl).
    vm_compute. reflexivity.
  - refine (generator_construction_errors (E := Rough.externals)
              "gone.yml" "locale: gone" _ (VStr "gone") _ Rough.start
              _ eq_refl eq_refl eq_refl).
    vm_compute. reflexivity.
Defined.

Lemma none_means_not_loaded_witness :
  exists content,
    files fresh !! "en.yml" = Some content /\
    yaml_load content = Ok (VDict [(VStr "locale", VStr "en_US")]).
Proof.
  assert (h : load_config "en.yml" fresh
              = Ok (VDict [(VStr "locale", VStr "en_US")],
                    assign_fake (VObj "Faker(en_US)") fresh))
    by (vm_compute; reflexivity).
  destruct (none_means_not_loaded "en.yml" fresh _ _ h)
    as [[Hnone _] | [_ Hparsed]]; [discriminate Hnone | exact Hparsed].
Defined.

Lemma search_path_grows_on_every_load_witness :
  exists w1 w2 registry1 registry2,
    load_provider_modules fresh = Ok (registry1, w1) /\
    load_provider_modules w1 = Ok (registry2, w2) /\
    sys_path w2 = "/pkg/providers" :: "/pkg/providers" :: sys_path fresh.
Proof.
  destruct (load_provider_modules fresh) as [[registry1 w1]|e] eqn:H1;
    [|vm_compute in H1; discriminate H1].
  destruct (load_provider_modules w1) as [[registry2 w2]|e] eqn:H2.
  - exists w1, w2, registry1, registry2.
    split; [reflexivity|]. split; [exact H2|].
    exact (proj2 (search_path_grows_on_every_load fresh w1 w2 _ _ H1 H2)).
  - exfalso. vm_compute in H1. injection H1 as <- <-.
    vm_compute in H2. discriminate H2.
Defined.

Lemma registry_keys_follow_listing_witness :
  exists registry w1,
    load_provider_modules fresh = Ok (registry, w1) /\
    registry.*1 = provider_names ["net.py"; "__init__.py"; "README.md"; "web.py"].
Proof.
  destruct (load_provider_modules fresh) as [[registry w1]|e] eqn:H1;
    [|vm_compute in H1; discriminate H1].
  exists registry, w1. split; [reflexivity|].
  apply (registry_keys_follow_listing fresh w1 registry _ H1 eq_refl).
  apply (bool_decide_unpack _). vm_compute. exact I.
Defined.

Lemma first_failing_import_ends_load_witness :
  load_provider_modules Rough.start
    = Raise (Exn (OtherError "ModuleNotFoundError") "oops" None).
Proof.
  destruct (load_modules_loop ["net.py"] []
              (set_sys_path (providers_dir Rough.start :: sys_path Rough.start)
                            Rough.start))
    as [[d w']|e] eqn:Hpre; [|vm_compute in Hpre; discriminate Hpre].
  apply (first_failing_import_ends_load Rough.start w' ["net.py"] ["web.py"]
           "oops.py" d _ eq_refl Hpre eq_refl).
  vm_compute in Hpre. injection Hpre as <- <-. vm_compute. reflexivity.
Defined.

Lemma registry_agrees_with_import_cache_witness :
  exists registry w1,
    load_provider_modules fresh = Ok (registry, w1) /\
    forall name m, (name, m) ∈ registry -> sys_modules w1 !! name = Some m.
Proof.
  destruct (load_provider_modules fresh) as [[registry w1]|e] eqn:H1;
    [|vm_compute in H1; discriminate H1].
  exists registry, w1. split; [reflexivity|].
  exact (proj1 (proj2 (registry_agrees_with_import_cache fresh w1 registry H1))).
Defined.

Lemma discovered_functions_resolve_witness :
  exists w1 ns,
    init_provider_functions fresh = Ok (tt, w1) /\
    sys_modules w1 !! string_drop_last 3 "web.py" = Some ns.
Proof.
  destruct (init_provider_functions fresh) as [[[] w1]|e] eqn:H1;
    [|vm_compute in H1; discriminate H1].
  destruct (discovered_functions_resolve fresh w1 _ "web.py" H1 eq_refl)
    as (ns & _ & Hns & _).
  - apply list_elem_of_further, list_elem_of_further, list_elem_of_further,
      list_elem_of_here.
  - reflexivity.
  - exists w1, ns. split; [reflexivity | exact Hns].
Defined.

Lemma custom_log_handlers_accumulate_witness :
  custom_log (VStr "INFO") VNone ∅
    = Ok ("root", {[ "root" := Logger 20 [stdout_handler] ]}) /\
  custom_log (VStr "DEBUG") VNone {[ "root" := Logger 20 [stdout_handler] ]}
    = Ok ("root", {[ "root" := Logger 10 [stdout_handler; stdout_handler] ]}) /\
  logger_handlers
    (logger_of {[ "root" := Logger 10 [stdout_handler; stdout_handler] ]} "root")
    = logger_handlers (logger_of ∅ "root") ++ [stdout_handler; stdout_handler].
Proof.
  assert (h1 : custom_log (VStr "INFO") VNone ∅
               = Ok ("root", {[ "root" := Logger 20 [stdout_handler] ]}))
    by (vm_compute; reflexivity).
  assert (h2 : custom_log (VStr "DEBUG") VNone
                          {[ "root" := Logger 20 [stdout_handler] ]}
               = Ok ("root",
                     {[ "root" := Logger 10 [stdout_handler; stdout_handler] ]}))
    by (vm_compute; reflexivity).
  split; [exact h1|]. split; [exact h2|].
  exact (proj1 (proj2 (proj2 (custom_log_handlers_accumulate
                                _ _ _ _ _ _ _ _ h1 h2)))).
Defined.

Lemma custom_log_rejects_bad_levels_witness :
  get_logger_name (VStr "app") = Ok "app" /\
  custom_log (VStr "LOUD") (VStr "app") ∅
    = Raise (Exn ValueError "Unknown level: 'LOUD'" None).
Proof.
  split; [reflexivity|].
  exact (proj1 (custom_log_rejects_bad_levels (VStr "LOUD") (VStr "app") ∅
                  "app" eq_refl) "LOUD" eq_refl eq_refl).
Defined.
